(** * The conversation lifecycle of the voice tour guide

    A shallow embedding of the two React hooks and of the page that composes
    them:

    - [useWakeWordDetection] (the wake-word gate and its silence timer),
    - [useRealtimeAgent] (the conversational link and its connect lock),
    - the page [openai-voice-agent/page.tsx] (the coordinator).

    React state ([useState]) and refs ([useRef]) are fields of an explicit
    world that every handler transforms.  A handler made by [useCallback] does
    not read React state from the world: it reads the values its closure
    captured in the render that created it.  Those values are an explicit
    argument ([Captured]) of every handler below; refs are read from the world.
    The browser (speech engine, timers, network, transport sessions) is the
    [Host] part of the world, and every call into it is recorded in a trace.

    Conventions:

    - a handler runs to completion and its state updates are applied together
      (React batches them), so one handler is one step;
    - [recognition.stop()] takes effect at once, and the engine may still
      deliver a result for the audio it has already captured;
    - [connect()] is cut at its [await]s: the synchronous prefix, the part
      after the token response, the part after [session.connect()];
    - playing the tone does not throw.

    The development also covers the preferences page ([app/page.tsx]) and
    the server: the proxy of the realtime sessions ([lib/realtime-proxy.ts]),
    the WebRTC server ([lib/webrtc-server.ts]) and the API routes that hand
    out tokens, exchange signals, create sessions and query them.  An [async] function of the server is cut at its [await]s like
    [connect()]. *)

From Stdlib Require Import String Ascii List Bool Arith NArith ZArith Lia.
Import ListNotations.
Local Open Scope string_scope.

(* ------------------------------------------------------------------------- *)
(** ** JavaScript string operations used by the transcript test *)

Module JS.

(** Strings are sequences of code units below 256 (Latin-1). *)

Definition between (lo hi : nat) (c : ascii) : bool :=
  (lo <=? nat_of_ascii c)%nat && (nat_of_ascii c <=? hi)%nat.

(** [String.prototype.toLowerCase] on one code unit: A-Z and the accented
    capitals 192-222 (the multiplication sign 215 apart) move up by 32. *)
Definition lowerChar (c : ascii) : ascii :=
  if between 65 90 c || (between 192 222 c && negb (nat_of_ascii c =? 215)%nat)
  then ascii_of_nat (nat_of_ascii c + 32)
  else c.

Fixpoint toLowerCase (s : string) : string :=
  match s with
  | EmptyString => EmptyString
  | String c s' => String (lowerChar c) (toLowerCase s')
  end.

(** White space and line terminators below 256: TAB, LF, VT, FF, CR, SP,
    NBSP. *)
Definition isWhiteSpace (c : ascii) : bool :=
  between 9 13 c || (nat_of_ascii c =? 32)%nat || (nat_of_ascii c =? 160)%nat.

Fixpoint trimStart (s : string) : string :=
  match s with
  | EmptyString => EmptyString
  | String c s' => if isWhiteSpace c then trimStart s' else s
  end.

Fixpoint trimEnd (s : string) : string :=
  match s with
  | EmptyString => EmptyString
  | String c s' =>
      match trimEnd s' with
      | EmptyString => if isWhiteSpace c then EmptyString else String c EmptyString
      | t => String c t
      end
  end.

Definition trim (s : string) : string := trimEnd (trimStart s).

Fixpoint startsWith (s p : string) {struct p} : bool :=
  match p, s with
  | EmptyString, _ => true
  | String _ _, EmptyString => false
  | String b p', String a s' => Ascii.eqb a b && startsWith s' p'
  end.

(** [s.includes(p)]: [p] occurs in [s] as a contiguous substring. *)
Fixpoint includes (s p : string) : bool :=
  startsWith s p ||
  match s with
  | EmptyString => false
  | String _ s' => includes s' p
  end.

(** [parts.join(sep)] with the empty separator, line 114. *)
Fixpoint join (parts : list string) : string :=
  match parts with
  | [] => EmptyString
  | p :: rest => p ++ join rest
  end.

End JS.

(* ------------------------------------------------------------------------- *)
(** ** The world: hook state, refs and the browser *)

Definition TimerId := nat.
Definition SessionId := nat.

(** What a [useCallback] closure of [useWakeWordDetection] remembers of the
    React state of the render that created it. *)
Record Captured := {
  cap_isListening : bool;
  cap_wakeWordDetected : bool;
  cap_conversationActive : bool
}.

(** The callbacks handed to [setTimeout]. *)
Inductive Task :=
| SilenceExpiry (c : Captured)        (* part_005, lines 180-196 *)
| RestartRecognition (c : Captured)   (* part_005, lines 162-170 *)
| SettleConnect.                      (* page.tsx, lines 45-47 *)

Record Timer := {
  timer_id : TimerId;
  timer_left : N;                     (* milliseconds until it fires *)
  timer_task : Task
}.

(** A [connect()] call suspended at one of its [await]s. *)
Inductive Pending :=
| AwaitToken
| AwaitEstablish (s : SessionId).

(** Calls that leave the hooks. *)
Inductive Effect :=
| RecognitionStart
| RecognitionStop
| PlayTone
| SetTimeout (id : TimerId) (ms : N) (t : Task)
| ClearTimeout (id : TimerId)
| WakeCallback                        (* onWakeWordDetected() *)
| TimeoutCallback                     (* onConversationTimeout() *)
| FetchToken                          (* fetch("/api/realtime/token") *)
| NewSession (s : SessionId)          (* new RealtimeSession(...) *)
| Establish (s : SessionId)           (* session.connect({ apiKey }) *)
| SessionClose (s : SessionId).       (* session.close() *)

Module Wake.
(** The state and refs of [useWakeWordDetection], part_005 lines 70-76. *)
Record State := {
  isListening : bool;
  wakeWordDetected : bool;
  conversationActive : bool;
  error : option string;
  recognitionRef : bool;            (* recognitionRef.current !== null *)
  silenceTimerRef : option TimerId
}.

Definition initial : State :=
  {| isListening := false; wakeWordDetected := false;
     conversationActive := false; error := None;
     recognitionRef := false; silenceTimerRef := None |}.
End Wake.

Module Agent.
(** The state and refs of [useRealtimeAgent], part_004 lines 143-150. *)
Record State := {
  isConnected : bool;
  isConnecting : bool;
  isSpeaking : bool;
  error : option string;
  sessionRef : option SessionId;
  agentRef : bool;                  (* agentRef.current !== null *)
  isConnectingRef : bool            (* the connect lock *)
}.

Definition initial : State :=
  {| isConnected := false; isConnecting := false; isSpeaking := false;
     error := None; sessionRef := None; agentRef := false;
     isConnectingRef := false |}.
End Agent.

Module Host.
Record State := {
  recognizing : bool;               (* the speech engine is started *)
  timers : list Timer;              (* pending setTimeout callbacks *)
  nextTimer : TimerId;
  nextSession : SessionId;
  inflight : list Pending;          (* suspended connect() calls *)
  listeners : list SessionId;       (* sessions with .on(...) handlers *)
  log : list Effect                 (* calls made so far, newest first *)
}.

(** Browser timer ids are positive, so [if (silenceTimerRef.current)] is a
    null test. *)
Definition initial : State :=
  {| recognizing := false; timers := []; nextTimer := 1; nextSession := 0;
     inflight := []; listeners := []; log := [] |}.
End Host.

Record World := {
  wake : Wake.State;
  agent : Agent.State;
  host : Host.State
}.

Definition Action := World -> World.

Definition seq (a b : Action) : Action := fun w => b (a w).
Notation "a ;; b" := (seq a b) (at level 61, right associativity).

Definition skip : Action := fun w => w.

Definition when (c : World -> bool) (a : Action) : Action :=
  fun w => if c w then a w else w.

Definition onWake (f : Wake.State -> Wake.State) : Action :=
  fun w => {| wake := f (wake w); agent := agent w; host := host w |}.
Definition onAgent (f : Agent.State -> Agent.State) : Action :=
  fun w => {| wake := wake w; agent := f (agent w); host := host w |}.
Definition onHost (f : Host.State -> Host.State) : Action :=
  fun w => {| wake := wake w; agent := agent w; host := f (host w) |}.

(** The calls made so far, oldest first. *)
Definition trace (w : World) : list Effect := rev (Host.log (host w)).

(** How many calls of one kind were made so far. *)
Definition occurrences (kind : Effect -> bool) (w : World) : nat :=
  length (filter kind (trace w)).

Definition isCountdownStart (e : Effect) : bool :=
  match e with SetTimeout _ _ (SilenceExpiry _) => true | _ => false end.
Definition isWakeCallback (e : Effect) : bool :=
  match e with WakeCallback => true | _ => false end.
Definition isFetchToken (e : Effect) : bool :=
  match e with FetchToken => true | _ => false end.

(* ------------------------------------------------------------------------- *)
(** ** The browser *)

Module Browser.

Definition emit (e : Effect) : Action :=
  onHost (fun h =>
    {| Host.recognizing := Host.recognizing h; Host.timers := Host.timers h;
       Host.nextTimer := Host.nextTimer h; Host.nextSession := Host.nextSession h;
       Host.inflight := Host.inflight h; Host.listeners := Host.listeners h;
       Host.log := e :: Host.log h |}).

Definition setRecognizing (b : bool) : Action :=
  onHost (fun h =>
    {| Host.recognizing := b; Host.timers := Host.timers h;
       Host.nextTimer := Host.nextTimer h; Host.nextSession := Host.nextSession h;
       Host.inflight := Host.inflight h; Host.listeners := Host.listeners h;
       Host.log := Host.log h |}).

Definition setTimers (ts : list Timer) : Action :=
  onHost (fun h =>
    {| Host.recognizing := Host.recognizing h; Host.timers := ts;
       Host.nextTimer := Host.nextTimer h; Host.nextSession := Host.nextSession h;
       Host.inflight := Host.inflight h; Host.listeners := Host.listeners h;
       Host.log := Host.log h |}).

Definition setNextTimer (n : TimerId) : Action :=
  onHost (fun h =>
    {| Host.recognizing := Host.recognizing h; Host.timers := Host.timers h;
       Host.nextTimer := n; Host.nextSession := Host.nextSession h;
       Host.inflight := Host.inflight h; Host.listeners := Host.listeners h;
       Host.log := Host.log h |}).

Definition setNextSession (n : SessionId) : Action :=
  onHost (fun h =>
    {| Host.recognizing := Host.recognizing h; Host.timers := Host.timers h;
       Host.nextTimer := Host.nextTimer h; Host.nextSession := n;
       Host.inflight := Host.inflight h; Host.listeners := Host.listeners h;
       Host.log := Host.log h |}).

Definition setInflight (l : list Pending) : Action :=
  onHost (fun h =>
    {| Host.recognizing := Host.recognizing h; Host.timers := Host.timers h;
       Host.nextTimer := Host.nextTimer h; Host.nextSession := Host.nextSession h;
       Host.inflight := l; Host.listeners := Host.listeners h;
       Host.log := Host.log h |}).

Definition setListeners (l : list SessionId) : Action :=
  onHost (fun h =>
    {| Host.recognizing := Host.recognizing h; Host.timers := Host.timers h;
       Host.nextTimer := Host.nextTimer h; Host.nextSession := Host.nextSession h;
       Host.inflight := Host.inflight h; Host.listeners := l;
       Host.log := Host.log h |}).

(** [recognition.start()] throws InvalidStateError when the engine is
    already started; [ok] continues the [try] block, [threw] is the [catch]. *)
Definition recognitionStart (ok threw : Action) : Action :=
  fun w =>
    if Host.recognizing (host w) then threw w
    else ok (emit RecognitionStart (setRecognizing true w)).

Definition alreadyStarted : string :=
  "Failed to execute 'start' on 'SpeechRecognition': recognition has already started.".

(** [recognition.stop()]; harmless when the engine is not started. *)
Definition recognitionStop : Action :=
  setRecognizing false ;; emit RecognitionStop.

(** [setTimeout(task, ms)]; [k] receives the returned id. *)
Definition setTimeout (t : Task) (ms : N) (k : TimerId -> Action) : Action :=
  fun w =>
    let id := Host.nextTimer (host w) in
    k id ((setTimers ({| timer_id := id; timer_left := ms; timer_task := t |}
                        :: Host.timers (host w)) ;;
           setNextTimer (S id) ;;
           emit (SetTimeout id ms t)) w).

Definition withoutTimer (id : TimerId) (ts : list Timer) : list Timer :=
  filter (fun t => negb (timer_id t =? id)%nat) ts.

(** [clearTimeout(id)]; harmless when [id] is not pending. *)
Definition clearTimeout (id : TimerId) : Action :=
  fun w => (setTimers (withoutTimer id (Host.timers (host w))) ;;
            emit (ClearTimeout id)) w.

Definition findTimer (id : TimerId) (w : World) : option Timer :=
  find (fun t => (timer_id t =? id)%nat) (Host.timers (host w)).

(** [new RealtimeSession(agent, { model, config })] *)
Definition newSession (k : SessionId -> Action) : Action :=
  fun w =>
    let s := Host.nextSession (host w) in
    k s ((setNextSession (S s) ;; emit (NewSession s)) w).

(** A [connect()] call reaches an [await]. *)
Definition suspend (p : Pending) : Action :=
  fun w => setInflight (Host.inflight (host w) ++ [p]) w.

(** [session.on(...)] *)
Definition addListeners (s : SessionId) : Action :=
  fun w => setListeners (s :: Host.listeners (host w)) w.

(** [session.close()]: the session emits nothing afterwards. *)
Definition sessionClose (s : SessionId) : Action :=
  fun w => (setListeners (filter (fun x => negb (x =? s)%nat)
                                 (Host.listeners (host w))) ;;
            emit (SessionClose s)) w.

Definition pendingEqb (p q : Pending) : bool :=
  match p, q with
  | AwaitToken, AwaitToken => true
  | AwaitEstablish s, AwaitEstablish t => (s =? t)%nat
  | _, _ => false
  end.

Fixpoint removeFirst (p : Pending) (l : list Pending) : option (list Pending) :=
  match l with
  | [] => None
  | q :: rest =>
      if pendingEqb p q then Some rest
      else option_map (cons q) (removeFirst p rest)
  end.

(** A suspended [connect()] is resumed with [k]; [None] when no call is
    suspended at [p]. *)
Definition resume (p : Pending) (k : Action) (w : World) : option World :=
  match removeFirst p (Host.inflight (host w)) with
  | Some rest => Some (k (setInflight rest w))
  | None => None
  end.

End Browser.

(* ------------------------------------------------------------------------- *)
(** ** useWakeWordDetection

    Line numbers are those of [src/unnamed/part_005] (its first document). *)

Module UseWakeWordDetection.
Import Browser.

(** [UseWakeWordDetectionOptions], lines 43-49.  [onSpeechActivity] is never
    called by the hook and is left out. *)
Record Options := {
  wakeWord : string;
  onWakeWordDetected : Action;
  onConversationTimeout : option Action;
  silenceTimeoutMs : option N
}.

(** The default of the destructured parameter, line 68. *)
Definition timeoutOf (o : Options) : N :=
  match silenceTimeoutMs o with Some ms => ms | None => 10000%N end.

(** The state the next render hands to the closures it creates. *)
Definition capture (w : World) : Captured :=
  {| cap_isListening := Wake.isListening (wake w);
     cap_wakeWordDetected := Wake.wakeWordDetected (wake w);
     cap_conversationActive := Wake.conversationActive (wake w) |}.

Definition setIsListening (b : bool) : Action :=
  onWake (fun s =>
    {| Wake.isListening := b; Wake.wakeWordDetected := Wake.wakeWordDetected s;
       Wake.conversationActive := Wake.conversationActive s;
       Wake.error := Wake.error s; Wake.recognitionRef := Wake.recognitionRef s;
       Wake.silenceTimerRef := Wake.silenceTimerRef s |}).

Definition setWakeWordDetected (b : bool) : Action :=
  onWake (fun s =>
    {| Wake.isListening := Wake.isListening s; Wake.wakeWordDetected := b;
       Wake.conversationActive := Wake.conversationActive s;
       Wake.error := Wake.error s; Wake.recognitionRef := Wake.recognitionRef s;
       Wake.silenceTimerRef := Wake.silenceTimerRef s |}).

Definition setConversationActive (b : bool) : Action :=
  onWake (fun s =>
    {| Wake.isListening := Wake.isListening s;
       Wake.wakeWordDetected := Wake.wakeWordDetected s;
       Wake.conversationActive := b;
       Wake.error := Wake.error s; Wake.recognitionRef := Wake.recognitionRef s;
       Wake.silenceTimerRef := Wake.silenceTimerRef s |}).

Definition setError (e : option string) : Action :=
  onWake (fun s =>
    {| Wake.isListening := Wake.isListening s;
       Wake.wakeWordDetected := Wake.wakeWordDetected s;
       Wake.conversationActive := Wake.conversationActive s;
       Wake.error := e; Wake.recognitionRef := Wake.recognitionRef s;
       Wake.silenceTimerRef := Wake.silenceTimerRef s |}).

Definition setRecognitionRef (b : bool) : Action :=
  onWake (fun s =>
    {| Wake.isListening := Wake.isListening s;
       Wake.wakeWordDetected := Wake.wakeWordDetected s;
       Wake.conversationActive := Wake.conversationActive s;
       Wake.error := Wake.error s; Wake.recognitionRef := b;
       Wake.silenceTimerRef := Wake.silenceTimerRef s |}).

Definition setSilenceTimerRef (r : option TimerId) : Action :=
  onWake (fun s =>
    {| Wake.isListening := Wake.isListening s;
       Wake.wakeWordDetected := Wake.wakeWordDetected s;
       Wake.conversationActive := Wake.conversationActive s;
       Wake.error := Wake.error s; Wake.recognitionRef := Wake.recognitionRef s;
       Wake.silenceTimerRef := r |}).

Definition hasRecognition (w : World) : bool := Wake.recognitionRef (wake w).

(** [if (silenceTimerRef.current) clearTimeout(silenceTimerRef.current)] *)
Definition clearSilenceTimer : Action :=
  fun w =>
    match Wake.silenceTimerRef (wake w) with
    | Some id => clearTimeout id w
    | None => w
    end.

Section Hook.
Variable opts : Options.

(** The initialising effect, lines 79-96.  It has an empty dependency
    list: it runs once, after the first render, and the handlers it
    assigns to [onresult], [onerror] and [onend] are the closures of that
    render. *)
Definition mountEffect (speechRecognition : bool) : Action :=
  if speechRecognition then setRecognitionRef true
  else setError (Some "Speech recognition not supported in this browser").

(** Lines 200-225; the tone itself is the browser's business. *)
Definition playWakeWordSound : Action := emit PlayTone.

(** The callback handed to [setTimeout] by [resetSilenceTimer], lines
    180-196, in a closure that captured [c]. *)
Definition silenceExpired (c : Captured) : Action :=
  setConversationActive false ;;
  setWakeWordDetected false ;;
  when (fun w => hasRecognition w && cap_isListening c)
       (recognitionStart skip skip) ;;
  match onConversationTimeout opts with
  | Some f => emit TimeoutCallback ;; f
  | None => skip
  end.

(** Lines 175-197. *)
Definition resetSilenceTimer (c : Captured) : Action :=
  clearSilenceTimer ;;
  setTimeout (SilenceExpiry c) (timeoutOf opts)
             (fun id => setSilenceTimerRef (Some id)).

(** The transcript of a result event, lines 111-116: the first
    alternative of every result, joined, lower-cased, trimmed. *)
Definition transcriptOf (results : list string) : string :=
  JS.trim (JS.toLowerCase (JS.join results)).

(** The condition of lines 121-125. *)
Definition wakeGuard (c : Captured) (transcript : string) : bool :=
  negb (cap_conversationActive c) &&
  negb (cap_wakeWordDetected c) &&
  JS.includes transcript (JS.toLowerCase (wakeWord opts)).

(** Lines 109-146, in a closure that captured [c]. *)
Definition handleSpeechResult (c : Captured) (results : list string) : Action :=
  let transcript := transcriptOf results in
  if wakeGuard c transcript
  then
    setWakeWordDetected true ;;
    setConversationActive true ;;
    when hasRecognition recognitionStop ;;
    playWakeWordSound ;;
    resetSilenceTimer c ;;
    emit WakeCallback ;;
    onWakeWordDetected opts
  else skip.

(** Lines 148-156. *)
Definition handleSpeechError (code : string) : Action :=
  if String.eqb code "no-speech" then skip
  else setError (Some ("Speech recognition error: " ++ code)).

(** The callback of the 100 ms restart timer, lines 162-170. *)
Definition restartRecognition (c : Captured) : Action :=
  when (fun w => hasRecognition w && cap_isListening c &&
                 negb (cap_conversationActive c))
       (recognitionStart skip skip).

(** Lines 158-172. *)
Definition handleSpeechEnd (c : Captured) : Action :=
  if cap_isListening c && negb (cap_conversationActive c)
  then setTimeout (RestartRecognition c) 100 (fun _ => skip)
  else skip.

(** Lines 227-238. *)
Definition startListening : Action :=
  setError None ;;
  when hasRecognition
       (recognitionStart
          (setIsListening true)
          (setError (Some ("Failed to start listening: " ++ alreadyStarted)))).

(** Lines 240-252. *)
Definition stopListening : Action :=
  when hasRecognition recognitionStop ;;
  setIsListening false ;;
  setConversationActive false ;;
  setWakeWordDetected false ;;
  clearSilenceTimer.

(** Lines 254-256. *)
Definition clearError : Action := setError None.

(** Lines 258-264. *)
Definition pauseSilenceTimer : Action :=
  fun w =>
    match Wake.silenceTimerRef (wake w) with
    | Some id => (clearTimeout id ;; setSilenceTimerRef None) w
    | None => w
    end.

(** Lines 266-269. *)
Definition resumeSilenceTimer (c : Captured) : Action :=
  resetSilenceTimer c.

End Hook.

End UseWakeWordDetection.

(* ------------------------------------------------------------------------- *)
(** ** useRealtimeAgent

    Line numbers are those of [src/unnamed/part_004]. *)

(** How the token request of [connect()] ends. *)
Inductive FetchOutcome :=
| ResponseOk                          (* 2xx with a token *)
| ResponseNotOk                       (* [!tokenResponse.ok] *)
| FetchThrew (msg : string).          (* [fetch] or [json()] rejected *)

(** How [session.connect({ apiKey })] ends. *)
Inductive EstablishOutcome :=
| Established
| EstablishThrew (msg : string).

Module UseRealtimeAgent.
Import Browser.

(** [UseRealtimeAgentOptions], lines 120-125. *)
Record Options := {
  onAudioStart : option Action;
  onAudioStopped : option Action;
  onUserSpeechStart : option Action;
  onUserSpeechStop : option Action
}.

Definition setIsConnected (b : bool) : Action :=
  onAgent (fun s =>
    {| Agent.isConnected := b; Agent.isConnecting := Agent.isConnecting s;
       Agent.isSpeaking := Agent.isSpeaking s; Agent.error := Agent.error s;
       Agent.sessionRef := Agent.sessionRef s; Agent.agentRef := Agent.agentRef s;
       Agent.isConnectingRef := Agent.isConnectingRef s |}).

Definition setIsConnecting (b : bool) : Action :=
  onAgent (fun s =>
    {| Agent.isConnected := Agent.isConnected s; Agent.isConnecting := b;
       Agent.isSpeaking := Agent.isSpeaking s; Agent.error := Agent.error s;
       Agent.sessionRef := Agent.sessionRef s; Agent.agentRef := Agent.agentRef s;
       Agent.isConnectingRef := Agent.isConnectingRef s |}).

Definition setIsSpeaking (b : bool) : Action :=
  onAgent (fun s =>
    {| Agent.isConnected := Agent.isConnected s;
       Agent.isConnecting := Agent.isConnecting s;
       Agent.isSpeaking := b; Agent.error := Agent.error s;
       Agent.sessionRef := Agent.sessionRef s; Agent.agentRef := Agent.agentRef s;
       Agent.isConnectingRef := Agent.isConnectingRef s |}).

Definition setError (e : option string) : Action :=
  onAgent (fun s =>
    {| Agent.isConnected := Agent.isConnected s;
       Agent.isConnecting := Agent.isConnecting s;
       Agent.isSpeaking := Agent.isSpeaking s; Agent.error := e;
       Agent.sessionRef := Agent.sessionRef s; Agent.agentRef := Agent.agentRef s;
       Agent.isConnectingRef := Agent.isConnectingRef s |}).

Definition setSessionRef (r : option SessionId) : Action :=
  onAgent (fun s =>
    {| Agent.isConnected := Agent.isConnected s;
       Agent.isConnecting := Agent.isConnecting s;
       Agent.isSpeaking := Agent.isSpeaking s; Agent.error := Agent.error s;
       Agent.sessionRef := r; Agent.agentRef := Agent.agentRef s;
       Agent.isConnectingRef := Agent.isConnectingRef s |}).

Definition setAgentRef (b : bool) : Action :=
  onAgent (fun s =>
    {| Agent.isConnected := Agent.isConnected s;
       Agent.isConnecting := Agent.isConnecting s;
       Agent.isSpeaking := Agent.isSpeaking s; Agent.error := Agent.error s;
       Agent.sessionRef := Agent.sessionRef s; Agent.agentRef := b;
       Agent.isConnectingRef := Agent.isConnectingRef s |}).

Definition setIsConnectingRef (b : bool) : Action :=
  onAgent (fun s =>
    {| Agent.isConnected := Agent.isConnected s;
       Agent.isConnecting := Agent.isConnecting s;
       Agent.isSpeaking := Agent.isSpeaking s; Agent.error := Agent.error s;
       Agent.sessionRef := Agent.sessionRef s; Agent.agentRef := Agent.agentRef s;
       Agent.isConnectingRef := b |}).

Definition hasSession (w : World) : bool :=
  match Agent.sessionRef (agent w) with Some _ => true | None => false end.

(** The initialising effect, lines 155-173: the agent is created unless it
    exists already. *)
Definition mountEffect : Action :=
  when (fun w => negb (Agent.agentRef (agent w))) (setAgentRef true).

(** The [catch] block of [connect], lines 279-284. *)
Definition connectFailed (msg : string) : Action :=
  setError (Some msg) ;;
  setIsConnecting false ;;
  setIsConnectingRef false.

(** [connect()] up to its first [await], lines 192-217. *)
Definition connect : Action :=
  fun w =>
    if negb (Agent.agentRef (agent w)) then
      setError (Some "Agent not initialized") w
    else if Agent.isConnectingRef (agent w) || hasSession w then w
    else (setIsConnectingRef true ;;
          setIsConnecting true ;;
          setError None ;;
          emit FetchToken ;;
          suspend AwaitToken) w.

(** [connect()] from the token response to its second [await], lines
    219-244. *)
Definition connectAfterToken (o : FetchOutcome) : Action :=
  match o with
  | ResponseOk =>
      newSession (fun s =>
        setSessionRef (Some s) ;;
        emit (Establish s) ;;
        suspend (AwaitEstablish s))
  | ResponseNotOk => connectFailed "Failed to get authentication token"
  | FetchThrew msg => connectFailed msg
  end.

Definition nullSession : string :=
  "Cannot read properties of null (reading 'on')".

(** [connect()] after [await sessionRef.current.connect(...)], lines
    246-284.  The listeners are put on whatever [sessionRef.current] holds
    now; reading [.on] of null throws into the same [catch]. *)
Definition connectAfterEstablish (o : EstablishOutcome) : Action :=
  match o with
  | Established =>
      fun w =>
        match Agent.sessionRef (agent w) with
        | Some s =>
            (addListeners s ;;
             setIsConnected true ;;
             setIsConnecting false) w
        | None => connectFailed nullSession w
        end
  | EstablishThrew msg => connectFailed msg
  end.

(** Lines 287-297. *)
Definition disconnect : Action :=
  (fun w =>
     match Agent.sessionRef (agent w) with
     | Some s => (sessionClose s ;; setSessionRef None) w
     | None => w
     end) ;;
  setIsConnected false ;;
  setIsConnecting false ;;
  setIsSpeaking false ;;
  setIsConnectingRef false.

(** Lines 299-301. *)
Definition clearError : Action := setError None.

(** What can happen to the link between two [disconnect()]s: a call of
    [connect()], or the end of one of its two [await]s. *)
Inductive Move :=
| CallConnect
| GotToken (o : FetchOutcome)
| GotEstablish (s : SessionId) (o : EstablishOutcome).

Definition move (m : Move) (w : World) : option World :=
  match m with
  | CallConnect => Some (connect w)
  | GotToken o => resume AwaitToken (connectAfterToken o) w
  | GotEstablish s o => resume (AwaitEstablish s) (connectAfterEstablish o) w
  end.

Fixpoint moves (ms : list Move) (w : World) : option World :=
  match ms with
  | [] => Some w
  | m :: rest =>
      match move m w with
      | Some w' => moves rest w'
      | None => None
      end
  end.


Definition call (f : option Action) : Action :=
  match f with Some g => g | None => skip end.

Section Listeners.
Variable opts : Options.

(** The listeners registered by [connect], lines 247-268. *)
Definition onAudioStartEvent : Action :=
  setIsSpeaking true ;; call (onAudioStart opts).

Definition onAudioStoppedEvent : Action :=
  setIsSpeaking false ;; call (onAudioStopped opts).

Definition onSpeechStartedEvent : Action := call (onUserSpeechStart opts).

Definition onSpeechStoppedEvent : Action := call (onUserSpeechStop opts).
End Listeners.

End UseRealtimeAgent.

(* ------------------------------------------------------------------------- *)
(** ** The page: both hooks wired together, and the events that drive them

    Line numbers are those of [src/src/app/openai-voice-agent/page.tsx]. *)

(** What a handler sees of the React state when it runs. *)
Definition Binding := World -> Captured.

Module Page.
Import Browser.
Module W := UseWakeWordDetection.
Module A := UseRealtimeAgent.

Definition initialWorld : World :=
  {| wake := Wake.initial; agent := Agent.initial; host := Host.initial |}.

(** The closures of the first render: they captured the initial
    [useState] values. *)
Definition firstRender : Captured := W.capture initialWorld.

(** Handlers as React runs them in this program.  The speech handlers are
    installed once by the mount effect of [useWakeWordDetection]; the
    session listeners are created inside [connect], a [useCallback] with an
    empty dependency list, so they call the callbacks of the first render of
    the page.  Every handler that reads captured state is therefore a
    closure of the first render. *)
Definition reactBinding : Binding := fun _ => firstRender.

(** Handlers that would see the state of the latest render. *)
Definition freshBinding : Binding := W.capture.

Section Home.
(** [process.env.NEXT_PUBLIC_WAKE_WORD] *)
Variable envWakeWord : option string.

(** [process.env.NEXT_PUBLIC_WAKE_WORD || "guide"], line 13: the empty
    string is falsy. *)
Definition wakeWord : string :=
  match envWakeWord with
  | Some s => if String.eqb s EmptyString then "guide" else s
  | None => "guide"
  end.

(** Lines 42-48: [connect()] is called 800 ms later. *)
Definition onWakeWordDetected : Action :=
  setTimeout SettleConnect 800 (fun _ => skip).

(** Lines 49-52. *)
Definition onConversationTimeout : Action := A.disconnect.

Definition wakeOptions : W.Options :=
  {| W.wakeWord := wakeWord;
     W.onWakeWordDetected := onWakeWordDetected;
     W.onConversationTimeout := Some onConversationTimeout;
     W.silenceTimeoutMs := None |}.

(** Lines 64-83; [c] is what the page's [resumeSilenceTimer] captured. *)
Definition agentOptions (c : Captured) : A.Options :=
  {| A.onAudioStart := Some W.pauseSilenceTimer;
     A.onAudioStopped := Some (W.resumeSilenceTimer wakeOptions c);
     A.onUserSpeechStart := Some W.pauseSilenceTimer;
     A.onUserSpeechStop := Some skip |}.

(** Lines 112-119.  The function is rebuilt by every render, so it reads
    the current [isListening]. *)
Definition handleToggleListening : Action :=
  fun w =>
    if Wake.isListening (wake w) then (W.stopListening ;; A.disconnect) w
    else W.startListening w.

(** Lines 87-90. *)
Definition clearError : Action := A.clearError ;; W.clearError.

(** Line 86: [agentError || speechError]. *)
Definition error (w : World) : option string :=
  match Agent.error (agent w) with
  | Some e => if String.eqb e EmptyString then Wake.error (wake w) else Some e
  | None => Wake.error (wake w)
  end.

Inductive Boundary :=
| AudioStart | AudioStopped | UserSpeechStarted | UserSpeechStopped.


Inductive Event :=
| ClickMic                                  (* the microphone button *)
| ClickClearError
| SpeechResult (results : list string)      (* recognition.onresult *)
| SpeechError (code : string)               (* recognition.onerror *)
| SpeechEnd                                 (* recognition.onend *)
| Elapse (ms : N)
| Fire (id : TimerId)
| TokenResponse (o : FetchOutcome)
| EstablishResponse (s : SessionId) (o : EstablishOutcome)
| FromSession (s : SessionId) (b : Boundary).

Definition runTask (t : Task) : Action :=
  match t with
  | SilenceExpiry c => W.silenceExpired wakeOptions c
  | RestartRecognition c => W.restartRecognition c
  | SettleConnect => A.connect
  end.

Definition onBoundary (c : Captured) (b : Boundary) : Action :=
  match b with
  | AudioStart => A.onAudioStartEvent (agentOptions c)
  | AudioStopped => A.onAudioStoppedEvent (agentOptions c)
  | UserSpeechStarted => A.onSpeechStartedEvent (agentOptions c)
  | UserSpeechStopped => A.onSpeechStoppedEvent (agentOptions c)
  end.

Definition elapse (ms : N) (w : World) : World :=
  setTimers
    (map (fun t => {| timer_id := timer_id t;
                      timer_left := (timer_left t - ms)%N;
                      timer_task := timer_task t |})
         (Host.timers (host w))) w.

Section Bound.
Variable bind : Binding.

(** One event; [None] when the event cannot happen in [w]. *)
Definition step (e : Event) (w : World) : option World :=
  match e with
  | ClickMic =>
(* disabled={isConnecting}, line 178 *)
if Agent.isConnecting (agent w) then None
else Some (handleToggleListening w)
| ClickClearError =>
match error w with
| Some _ => Some (clearError w)
| None => None
end
| SpeechResult results =>
if W.hasRecognition w
then Some (W.handleSpeechResult wakeOptions (bind w) results w)
else None
| SpeechError code =>
if W.hasRecognition w then Some (W.handleSpeechError code w) else None
| SpeechEnd =>
if W.hasRecognition w
then Some ((setRecognizing false ;; W.handleSpeechEnd (bind w)) w)
else None
| Elapse ms =>
if forallb (fun t => (ms <=? timer_left t)%N) (Host.timers (host w))
then Some (elapse ms w)
else None
| Fire id =>
match findTimer id w with
| Some t =>
    if (timer_left t =? 0)%N
    then Some ((setTimers (withoutTimer id (Host.timers (host w))) ;;
                runTask (timer_task t)) w)
    else None
| None => None
end
| TokenResponse o => resume AwaitToken (A.connectAfterToken o) w
| EstablishResponse s o =>
resume (AwaitEstablish s) (A.connectAfterEstablish o) w
| FromSession s b =>
if existsb (Nat.eqb s) (Host.listeners (host w))
then Some (onBoundary (bind w) b w)
else None
end.


Fixpoint run (es : list Event) (w : World) : option World :=
  match es with
  | [] => Some w
  | e :: rest =>
      match step e w with
      | Some w' => run rest w'
      | None => None
      end
  end.

(** The world after the first render and both mount effects. *)
Definition mounted (speechRecognition : bool) : World :=
  (W.mountEffect speechRecognition ;; A.mountEffect) initialWorld.

Inductive reachable : World -> Prop :=
| reach_mounted : forall sr, reachable (mounted sr)
| reach_step : forall w e w',
    reachable w -> step e w = Some w' -> reachable w'.

End Bound.
End Home.

End Page.

(* ------------------------------------------------------------------------- *)
(** ** Observations used in the statements *)

Local Open Scope list_scope.

Module W := UseWakeWordDetection.
Module A := UseRealtimeAgent.

(** The [clearTimeout] call that a restart of the countdown makes first. *)
Definition cancelled (w : World) : list Effect :=
  match Wake.silenceTimerRef (wake w) with
  | Some old => [ClearTimeout old]
  | None => []
  end.

(** The [recognition.start()] call of the expiry callback, when it is made
    and does not throw. *)
Definition restarted (c : Captured) (w : World) : list Effect :=
  if W.hasRecognition w && cap_isListening c && negb (Host.recognizing (host w))
  then [RecognitionStart]
  else [].


(** A page whose browser has no speech engine: no recognition object, and
    nothing reported or running. *)
Definition engineless (w : World) : Prop :=
  W.hasRecognition w = false /\
  Wake.isListening (wake w) = false /\
  Host.recognizing (host w) = false.

(** The two flags of the wake-word gate. *)
Definition flagsAgree (w : World) : Prop :=
  Wake.wakeWordDetected (wake w) = Wake.conversationActive (wake w).


(** Worlds used as examples: the page after its first render, after the
    first click on the microphone, and after the transcript "Hey guide" has
    then been heard by the handler the mount effect installed. *)
Definition exampleListening : World :=
  Page.handleToggleListening (Page.mounted true).

Definition exampleWoken : World :=
  W.handleSpeechResult (Page.wakeOptions None) Page.firstRender
                       ["Hey "%string; "guide"%string] exampleListening.


(** The microphone is switched on, the wake word is heard, the microphone
    is switched off during the settle delay, the scheduled [connect()] runs
    and succeeds, and the microphone is switched on again. *)
Definition exampleToggleDuringSettle : list Page.Event :=
  [Page.ClickMic; Page.SpeechResult ["Hey guide"%string]; Page.ClickMic;
   Page.Elapse 800; Page.Fire 2; Page.TokenResponse ResponseOk;
   Page.EstablishResponse 0 Established; Page.ClickMic].

(** One conversation that nobody continues: wake word, connection, ten
    seconds of silence. *)
Definition exampleSilentConversation : list Page.Event :=
  [Page.ClickMic; Page.SpeechResult ["Hey guide"%string];
   Page.Elapse 800; Page.Fire 2; Page.TokenResponse ResponseOk;
   Page.EstablishResponse 0 Established; Page.Elapse 9200; Page.Fire 1].

(* ------------------------------------------------------------------------- *)
(** ** Further observations *)

Definition isRecognitionStart (e : Effect) : bool :=
  match e with RecognitionStart => true | _ => false end.

Definition isSilence (t : Timer) : bool :=
  match timer_task t with SilenceExpiry _ => true | _ => false end.

(** The pending countdowns of the silence timer. *)
Definition countdowns (w : World) : list Timer :=
  filter isSilence (Host.timers (host w)).

(** A timer table is in order: ids are below the next id and distinct, a
    pending countdown is the one the ref holds, and the ref holds the id of
    a countdown, pending or not. *)
Definition tableInOrder (ts : list Timer) (next : TimerId)
                        (ref : option TimerId) : Prop :=
  (forall t, In t ts -> (timer_id t < next)%nat) /\
  NoDup (map timer_id ts) /\
  (forall t, In t ts -> isSilence t = true -> ref = Some (timer_id t)) /\
  (forall r, ref = Some r -> (r < next)%nat) /\
  (forall t, In t ts -> ref = Some (timer_id t) -> isSilence t = true).

Definition timersInOrder (w : World) : Prop :=
  tableInOrder (Host.timers (host w)) (Host.nextTimer (host w))
               (Wake.silenceTimerRef (wake w)).

(** The table once the timer the ref holds is cleared. *)
Definition withoutRef (ref : option TimerId) (ts : list Timer) : list Timer :=
  match ref with
  | Some old => Browser.withoutTimer old ts
  | None => ts
  end.

(** What the page shows of the link is coherent. *)
Definition linkCoherent (w : World) : Prop :=
  Agent.agentRef (agent w) = true /\
  (Agent.isConnected (agent w) = true -> A.hasSession w = true) /\
  (Agent.isConnecting (agent w) = true ->
   Agent.isConnectingRef (agent w) = true) /\
  (Agent.isConnected (agent w) = true ->
   Agent.isConnecting (agent w) = false).

(** The closure a pending callback holds. *)
Definition closureOf (t : Task) : option Captured :=
  match t with
  | SilenceExpiry c => Some c
  | RestartRecognition c => Some c
  | SettleConnect => None
  end.

(** Every pending callback was made by a handler of the first render. *)
Definition firstRenderTimers (w : World) : Prop :=
  forall t c, In t (Host.timers (host w)) ->
              closureOf (timer_task t) = Some c -> c = Page.firstRender.

(** The page reports listening whenever the speech engine runs. *)
Definition engineReported (w : World) : Prop :=
  Host.recognizing (host w) = true ->
  Wake.isListening (wake w) = true /\ W.hasRecognition w = true.

(** [handleToggleListening] is the only handler a click on the microphone
    runs. *)
Definition isClickMic (e : Page.Event) : bool :=
  match e with Page.ClickMic => true | _ => false end.

(** The message of a second [startListening()]. *)
Definition startFailed : string :=
  ("Failed to start listening: " ++ Browser.alreadyStarted)%string.

(* ------------------------------------------------------------------------- *)
(** ** What the page renders, and what unmounting leaves behind *)

(** JavaScript truthiness of a value that is a string or is missing. *)
Definition truthy (s : option string) : bool :=
  match s with
  | Some t => negb (String.eqb t EmptyString)
  | None => false
  end.

Definition textOf (s : option string) : string :=
  match s with Some t => t | None => EmptyString end.

Module View.

(** The wake word between double quotes. *)
Definition quoted (s : string) : string :=
  String (ascii_of_nat 34) (s ++ String (ascii_of_nat 34) EmptyString)%string.

(** [getStatusText], page.tsx lines 92-100. *)
Definition getStatusText (envWakeWord : option string) (w : World) : string :=
  if truthy (Page.error w) then ("Error: " ++ textOf (Page.error w))%string
  else if Agent.isConnecting (agent w) then "Connecting to AI..."%string
  else if Agent.isSpeaking (agent w) then "AI is speaking..."%string
  else if Wake.conversationActive (wake w) && Agent.isConnected (agent w)
       then "Listening - speak your question"%string
  else if Wake.wakeWordDetected (wake w)
       then "Wake word detected - connecting..."%string
  else if Wake.isListening (wake w)
       then ("Say " ++ quoted (Page.wakeWord envWakeWord) ++ " to start")%string
  else "Click to start listening"%string.

(** [getStatusColor], page.tsx lines 102-110. *)
Definition getStatusColor (w : World) : string :=
  if truthy (Page.error w) then "bg-red-500"%string
  else if Agent.isConnecting (agent w) then "bg-yellow-500"%string
  else if Agent.isSpeaking (agent w) then "bg-purple-500 speaking-bounce"%string
  else if Wake.conversationActive (wake w) && Agent.isConnected (agent w)
       then "bg-green-500 listening-pulse"%string
  else if Wake.wakeWordDetected (wake w) then "bg-blue-500"%string
  else if Wake.isListening (wake w) then "bg-gray-500"%string
  else "bg-gray-400"%string.

End View.

Module Unmount.
Import Browser.




End Unmount.


(* ------------------------------------------------------------------------- *)
(** ** The server: RealtimeProxy

    Line numbers are those of [src/src/lib/realtime-proxy.ts]. *)

(** A JavaScript [Map] with string keys: its entries in insertion order,
    one entry a key. *)
Module JsMap.
Section WithValue.
Context {V : Type}.

Definition Map := list (string * V).

Definition isKey (k : string) (e : string * V) : bool := (fst e =? k)%string.

Definition get (k : string) (m : Map) : option V :=
  match find (isKey k) m with
  | Some e => Some (snd e)
  | None => None
  end.

Definition has (k : string) (m : Map) : bool :=
  match get k m with Some _ => true | None => false end.

(** [set] keeps the place of a key that is present and appends a new
    one. *)
Fixpoint set (k : string) (v : V) (m : Map) : Map :=
  match m with
  | [] => [(k, v)]
  | e :: rest => if isKey k e then (k, v) :: rest else e :: set k v rest
  end.

Definition delete (k : string) (m : Map) : Map :=
  filter (fun e => negb (isKey k e)) m.

Definition keys (m : Map) : list string := map fst m.

Definition values (m : Map) : list V := map snd m.

End WithValue.
End JsMap.

(** A call that returns or throws. *)
Inductive Result (A : Type) :=
| Returned (a : A)
| Threw (message : string).
Arguments Returned {A} a.
Arguments Threw {A} message.

Module RealtimeProxy.

Definition SocketId := nat.

(** Milliseconds, as [Date.getTime()] gives them. *)
Definition Time := Z.

(** [RealtimeSession], lines 11-16. *)
Record RealtimeSession := {
  id : string;
  websocket : option SocketId;
  isConnected : bool;
  lastActivity : Time
}.

(** What the proxy sends to a websocket; the audio of
    [input_audio_buffer.append] stands for its base64 form. *)
Inductive ClientMessage :=
| SessionUpdate
| InputAudioBufferAppend (audio : string)
| ConversationItemCreate (text : string)
| ResponseCreate.

(** What the proxy receives: [data] of a [message] event, by the [type] of
    its JSON; [Unparsable] when [JSON.parse] throws; the [error] of an
    [error] message may be missing. *)
Inductive ServerMessage :=
| Unparsable
| SessionCreated
| AudioDelta (delta : option string)
| AudioDone
| ErrorMessage (error : option string)
| Unhandled.

(** What the proxy does to the outside. *)
Inductive Effect :=
| NewWebSocket (ws : SocketId)
| Send (ws : SocketId) (m : ClientMessage)
| Close (ws : SocketId)
| OnSessionStateChange (state sessionId : string)
| OnError (message sessionId : string)
| OnAudioResponse (delta sessionId : string).

(** The proxy: its [sessions], the sockets made so far, the calls of
    [createSession] that wait for their socket to open, and what has been
    done (newest first). *)
Record State := {
  sessions : JsMap.Map (V := RealtimeSession);
  nextSocket : SocketId;
  opening : list (SocketId * string);
  log : list Effect
}.

(** [new RealtimeProxy(options)] *)
Definition initial : State :=
  {| sessions := []; nextSocket := 0; opening := []; log := [] |}.

Definition setSessions (m : JsMap.Map) (p : State) : State :=
  {| sessions := m; nextSocket := nextSocket p; opening := opening p;
     log := log p |}.

Definition emit (e : Effect) (p : State) : State :=
  {| sessions := sessions p; nextSocket := nextSocket p;
     opening := opening p; log := e :: log p |}.

(** The session object filed under [sessionId] is updated in place, if
    there is one. *)
Definition withSession (sessionId : string)
  (f : RealtimeSession -> RealtimeSession) (p : State) : State :=
  match JsMap.get sessionId (sessions p) with
  | Some s => setSessions (JsMap.set sessionId (f s) (sessions p)) p
  | None => p
  end.

Definition setIsConnected (b : bool) (s : RealtimeSession) : RealtimeSession :=
  {| id := id s; websocket := websocket s; isConnected := b;
     lastActivity := lastActivity s |}.

Definition setLastActivity (t : Time) (s : RealtimeSession) : RealtimeSession :=
  {| id := id s; websocket := websocket s; isConnected := isConnected s;
     lastActivity := t |}.

Definition alreadyExists (sessionId : string) : string :=
  ("Session " ++ sessionId ++ " already exists")%string.

Definition notConnected (sessionId : string) : string :=
  ("Session " ++ sessionId ++ " is not connected")%string.

(** [createSession] up to its first [await], lines 29-53. *)
Definition createSession (sessionId : string) (now : Time) (p : State)
  : Result State :=
  if JsMap.has sessionId (sessions p) then Threw (alreadyExists sessionId)
  else
    let ws := nextSocket p in
    Returned
      {| sessions :=
           JsMap.set sessionId
             {| id := sessionId; websocket := Some ws; isConnected := false;
                lastActivity := now |} (sessions p);
         nextSocket := S ws;
         opening := opening p ++ [(ws, sessionId)];
         log := NewWebSocket ws :: log p |}.

Definition waits (ws : SocketId) (sessionId : string) (p : State) : bool :=
  existsb (fun c => (fst c =? ws)%nat && (snd c =? sessionId)%string)
          (opening p).

Definition settle (ws : SocketId) (p : State) : State :=
  {| sessions := sessions p; nextSocket := nextSocket p;
     opening := filter (fun c => negb (fst c =? ws)%nat) (opening p);
     log := log p |}.

(** [initializeOpenAISession], lines 111-138. *)
Definition initializeOpenAISession (sessionId : string) (p : State) : State :=
  match JsMap.get sessionId (sessions p) with
  | Some {| websocket := Some ws |} => emit (Send ws SessionUpdate) p
  | _ => p
  end.

(** The [open] listener, lines 70-81; it resolves the promise
    [createSession] waits for, which then runs lines 55-58. *)
Definition onOpen (ws : SocketId) (sessionId : string) (now : Time)
  (p : State) : State :=
  let p1 := withSession sessionId
              (fun s => setLastActivity now (setIsConnected true s)) p in
  let p2 := emit (OnSessionStateChange "connected" sessionId) p1 in
  if waits ws sessionId p2
  then initializeOpenAISession sessionId (settle ws p2)
  else p2.

(** The [error] listener, lines 87-94; it rejects the promise, and the
    [catch] of [createSession], lines 59-62, deletes the entry and throws
    again. *)
Definition onError (ws : SocketId) (sessionId : string) (message : string)
  (p : State) : State :=
  let p1 := emit (OnError message sessionId) p in
  if waits ws sessionId p1
  then setSessions (JsMap.delete sessionId (sessions p1)) (settle ws p1)
  else p1.

(** The [close] listener, lines 96-107. *)
Definition onClose (sessionId : string) (p : State) : State :=
  emit (OnSessionStateChange "disconnected" sessionId)
       (withSession sessionId (setIsConnected false) p).

(** [handleOpenAIMessage], lines 140-184. *)
Definition handleOpenAIMessage (data : ServerMessage) (sessionId : string)
  (now : Time) (p : State) : State :=
  let touch := withSession sessionId (setLastActivity now) in
  match data with
  | Unparsable => p
  | SessionCreated => touch p
  | AudioDelta delta =>
      if truthy delta
      then touch (emit (OnAudioResponse (textOf delta) sessionId) p)
      else touch p
  | AudioDone => touch p
  | ErrorMessage (Some message) => touch (emit (OnError message sessionId) p)
  | ErrorMessage None => p
  | Unhandled => touch p
  end.

(** [sendAudioData], lines 186-204. *)
Definition sendAudioData (sessionId : string) (audioData : string)
  (now : Time) (p : State) : Result State :=
  match JsMap.get sessionId (sessions p) with
  | Some {| websocket := Some ws; isConnected := true |} =>
      Returned
        (withSession sessionId (setLastActivity now)
           (emit (Send ws (InputAudioBufferAppend audioData)) p))
  | _ => Threw (notConnected sessionId)
  end.

(** [sendTextQuery], lines 206-239. *)
Definition sendTextQuery (sessionId : string) (text : string) (now : Time)
  (p : State) : Result State :=
  match JsMap.get sessionId (sessions p) with
  | Some {| websocket := Some ws; isConnected := true |} =>
      Returned
        (withSession sessionId (setLastActivity now)
           (emit (Send ws ResponseCreate)
              (emit (Send ws (ConversationItemCreate text)) p)))
  | _ => Threw (notConnected sessionId)
  end.

(** [closeSession], lines 241-247. *)
Definition closeSession (sessionId : string) (p : State) : State :=
  let p1 := match JsMap.get sessionId (sessions p) with
            | Some {| websocket := Some ws |} => emit (Close ws) p
            | _ => p
            end in
  setSessions (JsMap.delete sessionId (sessions p1)) p1.

(** [getSession], lines 249-251. *)
Definition getSession (sessionId : string) (p : State)
  : option RealtimeSession :=
  JsMap.get sessionId (sessions p).

(** [getAllSessions], lines 253-255. *)
Definition getAllSessions (p : State) : list RealtimeSession :=
  JsMap.values (sessions p).

(** A [for ... of] over the map whose body deletes no entry but the one it
    visits: the entries are those at the start of the loop. *)
Definition forEachEntry (body : string -> RealtimeSession -> State -> State)
  (p : State) : State :=
  fold_left (fun q e => body (fst e) (snd e) q) (sessions p) p.

Definition cutoffOf (maxInactiveMinutes : Z) (now : Time) : Time :=
  (now - maxInactiveMinutes * 60 * 1000)%Z.

Definition stale (cutoff : Time) (e : string * RealtimeSession) : bool :=
  (lastActivity (snd e) <? cutoff)%Z.

(** [cleanupInactiveSessions], lines 258-268. *)
Definition cleanupInactiveSessions (maxInactiveMinutes : Z) (now : Time)
  : State -> State :=
  forEachEntry (fun sessionId session q =>
    if stale (cutoffOf maxInactiveMinutes now) (sessionId, session)
    then closeSession sessionId q
    else q).

(** [dispose], lines 270-275. *)
Definition dispose : State -> State :=
  forEachEntry (fun sessionId _ q => closeSession sessionId q).

(** Everything that can happen to a proxy. *)
Inductive Op :=
| CreateSession (sessionId : string) (now : Time)
| Open (ws : SocketId) (sessionId : string) (now : Time)
| Error (ws : SocketId) (sessionId : string) (message : string)
| Closed (sessionId : string)
| Message (data : ServerMessage) (sessionId : string) (now : Time)
| SendAudioData (sessionId : string) (audioData : string) (now : Time)
| SendTextQuery (sessionId : string) (text : string) (now : Time)
| CloseSession (sessionId : string)
| CleanupInactiveSessions (maxInactiveMinutes : Z) (now : Time)
| Dispose.

Definition orSame (r : Result State) (p : State) : State :=
  match r with Returned q => q | Threw _ => p end.

Definition apply (o : Op) (p : State) : State :=
  match o with
  | CreateSession sessionId now => orSame (createSession sessionId now p) p
  | Open ws sessionId now => onOpen ws sessionId now p
  | Error ws sessionId message => onError ws sessionId message p
  | Closed sessionId => onClose sessionId p
  | Message data sessionId now => handleOpenAIMessage data sessionId now p
  | SendAudioData sessionId audioData now =>
      orSame (sendAudioData sessionId audioData now p) p
  | SendTextQuery sessionId text now =>
      orSame (sendTextQuery sessionId text now p) p
  | CloseSession sessionId => closeSession sessionId p
  | CleanupInactiveSessions m now => cleanupInactiveSessions m now p
  | Dispose => dispose p
  end.

Definition run (os : list Op) (p : State) : State :=
  fold_left (fun q o => apply o q) os p.

(** The sockets of the sessions of [m] that have one, in map order. *)
Definition socketsOf (m : JsMap.Map) : list SocketId :=
  flat_map (fun e => match websocket (snd e) with
                     | Some ws => [ws]
                     | None => []
                     end) m.

Definition done (p : State) : list Effect := rev (log p).

(** The body of a loop that closes the sessions chosen by [sel]. *)
Definition closeWhen (sel : string * RealtimeSession -> bool)
  (sessionId : string) (session : RealtimeSession) (q : State) : State :=
  if sel (sessionId, session) then closeSession sessionId q else q.

(** Every session is filed under its own id and holds a websocket made by
    the proxy, and no two sessions hold the same websocket. *)
Definition filed (m : JsMap.Map) (next : SocketId) : Prop :=
  NoDup (JsMap.keys m) /\
  (forall e, In e m ->
     id (snd e) = fst e /\
     exists ws, websocket (snd e) = Some ws /\ (ws < next)%nat) /\
  (forall e1 e2, In e1 m -> In e2 m ->
     websocket (snd e1) = websocket (snd e2) -> fst e1 = fst e2).

End RealtimeProxy.

(** Three sessions: [a] was last active at 1000 ms, [c] at 999 ms, [b] half
    an hour later. *)
Definition exampleProxy : RealtimeProxy.State :=
  RealtimeProxy.run
    [RealtimeProxy.CreateSession "a" 0%Z; RealtimeProxy.Open 0 "a" 1000%Z;
     RealtimeProxy.CreateSession "c" 0%Z; RealtimeProxy.Open 1 "c" 999%Z;
     RealtimeProxy.CreateSession "b" 1800000%Z;
     RealtimeProxy.Open 2 "b" 1800001%Z]
    RealtimeProxy.initial.
Module P := RealtimeProxy.

(* ------------------------------------------------------------------------- *)
(** ** The server: API routes *)

(** What a route hands to [res.json]; a field whose value is [undefined]
    is left out, a [Date] is kept as its time. *)
#[warnings="-register-all"]
Inductive Json :=
| JString (s : string)
| JBool (b : bool)
| JDate (t : Z)
| JArray (items : list Json)
| JObject (fields : list (string * Json)).

Record Response := { status : nat; body : Json }.

Definition errorBody (error : string) : Json :=
  JObject [("error", JString error)].

Definition failureBody (error message : string) : Json :=
  JObject [("error", JString error); ("message", JString message)].

Definition keyRequired : string :=
  "OPENAI_API_KEY environment variable is required".

(** [/api/realtime/token]; line numbers are those of
    [src/unnamed/part_003]. *)
Module TokenRoute.

(** How the request to [/v1/realtime/client_secrets] ends: a reply that is
    [ok] and whose JSON may have a [value], a reply that is not [ok], or an
    exception of [fetch] or of [response.json()]. *)
Inductive Upstream :=
| UpstreamOk (value : option string)
| UpstreamNotOk (statusText : string)
| UpstreamThrew (message : string).

(** The [Authorization] headers sent upstream, and the response. *)
Definition handler (method : string) (apiKey : option string)
  (upstream : Upstream) : list string * Response :=
  if negb (method =? "POST")%string then
    ([], {| status := 405; body := errorBody "Method not allowed" |})
  else if negb (truthy apiKey) then
    ([], {| status := 500; body := errorBody "OPENAI_API_KEY not configured" |})
  else
    (["Bearer " ++ textOf apiKey]%string,
     match upstream with
     | UpstreamOk value =>
         {| status := 200;
            body := JObject
                      (match value with
                       | Some v => [("token", JString v)]
                       | None => []
                       end ++ [("expiresIn", JString "1 hour")]) |}
     | UpstreamNotOk statusText =>
         {| status := 500;
            body := failureBody "Failed to generate token"
                      ("Failed to generate token: " ++ statusText) |}
     | UpstreamThrew message =>
         {| status := 500;
            body := failureBody "Failed to generate token" message |}
     end).

(** [tokenResponse.ok] as [connect()] of [useRealtimeAgent] reads it
    (part_004 line 219). *)
Definition ok (r : Response) : bool :=
  (200 <=? status r)%nat && (status r <=? 299)%nat.

Definition outcome (r : Response) : FetchOutcome :=
  if ok r then ResponseOk else ResponseNotOk.

End TokenRoute.

(** A parameter of [req.query]. *)
Inductive QueryParam :=
| Absent
| Single (s : string)
| Multiple (l : list string).

(** [sessionId && typeof sessionId === "string"] *)
Definition truthyString (q : QueryParam) : option string :=
  match q with
  | Single s => if truthy (Some s) then Some s else None
  | _ => None
  end.

(** The route of the realtime sessions; line numbers are those of
    [src/unnamed/part_004] (its first document).  The fields of the body
    that the route reads are strings or missing. *)
Module SessionRoute.

Record Request := {
  method : string;
  bodyQuery : option string;
  bodySessionId : option string;
  querySessionId : QueryParam
}.

(** The module variable [realtimeProxy], line 5. *)
Definition State := option RealtimeProxy.State.

Definition sessionInfo (s : RealtimeProxy.RealtimeSession) : list (string * Json) :=
  [("sessionId", JString (RealtimeProxy.id s));
   ("isConnected", JBool (RealtimeProxy.isConnected s));
   ("lastActivity", JDate (RealtimeProxy.lastActivity s))].

Definition internalError (message : string) : Response :=
  {| status := 500; body := failureBody "Internal server error" message |}.

(** [initializeRealtimeProxy], lines 7-28. *)
Definition initializeRealtimeProxy (apiKey : option string) (st : State)
  : Result RealtimeProxy.State :=
  match st with
  | Some p => Returned p
  | None => if truthy apiKey then Returned RealtimeProxy.initial
            else Threw keyRequired
  end.

(** [handler], lines 30-107. *)
Definition handler (apiKey : option string) (now : Z) (req : Request)
  (st : State) : State * Response :=
  match initializeRealtimeProxy apiKey st with
  | Threw message => (st, internalError message)
  | Returned p =>
      if (method req =? "POST")%string then
        if negb (truthy (bodyQuery req)) then
          (Some p, {| status := 400; body := errorBody "Query is required" |})
        else if truthy (bodySessionId req) then
          match RealtimeProxy.getSession (textOf (bodySessionId req)) p with
          | None =>
              (Some p,
               {| status := 404; body := errorBody "Session not found" |})
          | Some _ =>
              match RealtimeProxy.sendTextQuery
                      (textOf (bodySessionId req))
                      (textOf (bodyQuery req)) now p with
              | Returned q =>
                  (Some q,
                   {| status := 200;
                      body := JObject
                                [("message",
                                  JString "Query sent successfully")] |})
              | Threw message => (Some p, internalError message)
              end
          end
        else
          (Some p,
           {| status := 200;
              body := JObject
                        [("message", JString "Text query received");
                         ("response",
                          JString ("I received your message: " ++
                                   textOf (bodyQuery req)))] |})
      else if (method req =? "GET")%string then
        match truthyString (querySessionId req) with
        | Some sessionId =>
            match RealtimeProxy.getSession sessionId p with
            | Some session =>
                (Some p, {| status := 200;
                            body := JObject (sessionInfo session) |})
            | None =>
                (Some p,
                 {| status := 404; body := errorBody "Session not found" |})
            end
        | None =>
            (Some p,
             {| status := 200;
                body := JObject
                          [("sessions",
                            JArray (map (fun s => JObject (sessionInfo s))
                                        (RealtimeProxy.getAllSessions p)))] |})
        end
      else if (method req =? "DELETE")%string then
        match truthyString (querySessionId req) with
        | None =>
            (Some p,
             {| status := 400; body := errorBody "Session ID is required" |})
        | Some sessionId =>
            (Some (RealtimeProxy.closeSession sessionId p),
             {| status := 200;
                body := JObject
                          [("message",
                            JString "Session closed successfully")] |})
        end
      else
        (Some p, {| status := 405; body := errorBody "Method not allowed" |})
  end.

(** The [setInterval] callback, lines 110-114. *)
Definition tick (now : Z) (st : State) : State :=
  match st with
  | Some p => Some (RealtimeProxy.cleanupInactiveSessions 30 now p)
  | None => None
  end.

(** What happens to the module: a request, with the value of
    [OPENAI_API_KEY] then, or the timer. *)
Inductive Event :=
| Serve (apiKey : option string) (now : Z) (req : Request)
| Tick (now : Z).

Definition step (e : Event) (st : State) : State :=
  match e with
  | Serve apiKey now req => fst (handler apiKey now req st)
  | Tick now => tick now st
  end.

Definition run (es : list Event) (st : State) : State :=
  fold_left (fun s e => step e s) es st.

End SessionRoute.

(** The route that creates an OpenAI session; line numbers are those of
    [src/src/pages/api/webrtc/signaling.ts] (its second document, lines
    160-219 of the file). *)
Module CreateRoute.

Record Request := {
  method : string;
  bodySessionId : option string
}.

(** The module variable [realtimeProxy], line 164. *)
Definition State := option RealtimeProxy.State.

(** The handler has responded, or waits in [createSession] for the
    websocket [ws] to open. *)
Inductive Answer :=
| Respond (r : Response)
| Await (ws : RealtimeProxy.SocketId) (sessionId : string).

Definition creationFailed (message : string) : Response :=
  {| status := 500;
     body := failureBody "Failed to create OpenAI session" message |}.

Definition created : Response :=
  {| status := 200;
     body := JObject [("success", JBool true);
                      ("message",
                       JString "OpenAI session created successfully")] |}.

(** [initializeRealtimeProxy], lines 166-187. *)
Definition initializeRealtimeProxy (apiKey : option string) (st : State)
  : Result RealtimeProxy.State :=
  match st with
  | Some p => Returned p
  | None => if truthy apiKey then Returned RealtimeProxy.initial
            else Threw keyRequired
  end.

(** [handler] up to its [await], lines 189-206. *)
Definition handler (apiKey : option string) (now : Z) (req : Request)
  (st : State) : State * Answer :=
  if negb (method req =? "POST")%string then
    (st, Respond {| status := 405; body := errorBody "Method not allowed" |})
  else
    match initializeRealtimeProxy apiKey st with
    | Threw message => (st, Respond (creationFailed message))
    | Returned p =>
        if negb (truthy (bodySessionId req)) then
          (Some p, Respond {| status := 400;
                              body := errorBody "Session ID is required" |})
        else
          match RealtimeProxy.createSession (textOf (bodySessionId req))
                                            now p with
          | Threw message => (Some p, Respond (creationFailed message))
          | Returned q =>
              (Some q, Await (RealtimeProxy.nextSocket p)
                             (textOf (bodySessionId req)))
          end
    end.

(** The websocket of a waiting handler opens: lines 208-211. *)
Definition opened (ws : RealtimeProxy.SocketId) (sessionId : string)
  (now : Z) (p : RealtimeProxy.State) : RealtimeProxy.State * Response :=
  (RealtimeProxy.onOpen ws sessionId now p, created).

(** The websocket of a waiting handler fails: lines 212-218. *)
Definition failed (ws : RealtimeProxy.SocketId) (sessionId : string)
  (message : string) (p : RealtimeProxy.State)
  : RealtimeProxy.State * Response :=
  (RealtimeProxy.onError ws sessionId message p, creationFailed message).

End CreateRoute.

(* ------------------------------------------------------------------------- *)
(** ** The preferences page

    Line numbers are those of [src/src/app/page.tsx]. *)

Module Preferences.





Definition first (s : string) : option ascii :=
  match s with
  | EmptyString => None
  | String c _ => Some c
  end.


End Preferences.

(* ------------------------------------------------------------------------- *)
(** ** The server: WebRTC signalling

    Line numbers are those of [src/src/lib/webrtc-server.ts] and of
    [src/src/pages/api/webrtc/signaling.ts] (its first document). *)

(** A call of a route handler. *)
Definition HandlerId := nat.

Module WebRTCServer.

Definition PeerId := nat.

(** What the server does to its peers. *)
Inductive Effect :=
| NewPeer (peer : PeerId)
| Signal (peer : PeerId) (signal : string)
| Send (peer : PeerId) (audio : string)
| Destroy (peer : PeerId).

(** The server: its [peers], the peers made so far, the peers whose
    [connected] is true, the listeners of its [signal] event (each with
    the session id it waits for), and what has been done (newest
    first). *)
Record State := {
  peers : JsMap.Map (V := PeerId);
  nextPeer : PeerId;
  connectedPeers : list PeerId;
  signalListeners : list (HandlerId * string);
  log : list Effect
}.

(** [new WebRTCServer(options)] *)
Definition initial : State :=
  {| peers := []; nextPeer := 0; connectedPeers := [];
     signalListeners := []; log := [] |}.

Definition isConnected (peer : PeerId) (s : State) : bool :=
  existsb (Nat.eqb peer) (connectedPeers s).

Definition without (peer : PeerId) (l : list PeerId) : list PeerId :=
  filter (fun q => negb (q =? peer)%nat) l.

(** [createPeerConnection], lines 23-46: an entry under [sessionId] is
    replaced. *)
Definition createPeerConnection (sessionId : string)
  (initiatorSignal : option string) (s : State) : State :=
  let peer := nextPeer s in
  {| peers := JsMap.set sessionId peer (peers s);
     nextPeer := S peer;
     connectedPeers := connectedPeers s;
     signalListeners := signalListeners s;
     log := match initiatorSignal with
            | Some signal => [Signal peer signal]
            | None => []
            end ++ NewPeer peer :: log s |}.

(** [server.on("signal", listener)] *)
Definition onSignal (h : HandlerId) (sessionId : string) (s : State) : State :=
  {| peers := peers s; nextPeer := nextPeer s;
     connectedPeers := connectedPeers s;
     signalListeners := signalListeners s ++ [(h, sessionId)];
     log := log s |}.

(** [server.removeListener("signal", listener)] for the listeners that
    wait for [sessionId]. *)
Definition removeListeners (sessionId : string) (s : State) : State :=
  {| peers := peers s; nextPeer := nextPeer s;
     connectedPeers := connectedPeers s;
     signalListeners :=
       filter (fun l => negb (snd l =? sessionId)%string) (signalListeners s);
     log := log s |}.

(** The [connect] listener, lines 56-59; the peer has set its
    [connected]. *)
Definition onPeerConnect (peer : PeerId) (s : State) : State :=
  {| peers := peers s; nextPeer := nextPeer s;
     connectedPeers := peer :: connectedPeers s;
     signalListeners := signalListeners s; log := log s |}.

(** The [close] listener, lines 79-83; the peer has cleared its
    [connected]. *)
Definition onPeerClose (peer : PeerId) (sessionId : string) (s : State)
  : State :=
  {| peers := JsMap.delete sessionId (peers s); nextPeer := nextPeer s;
     connectedPeers := without peer (connectedPeers s);
     signalListeners := signalListeners s; log := log s |}.

(** [sendAudioData], lines 96-103. *)
Definition sendAudioData (sessionId : string) (audioData : string)
  (s : State) : State * bool :=
  match JsMap.get sessionId (peers s) with
  | Some peer =>
      if isConnected peer s
      then ({| peers := peers s; nextPeer := nextPeer s;
               connectedPeers := connectedPeers s;
               signalListeners := signalListeners s;
               log := Send peer audioData :: log s |}, true)
      else (s, false)
  | None => (s, false)
  end.

Definition destroy (peer : PeerId) (s : State) : State :=
  {| peers := peers s; nextPeer := nextPeer s;
     connectedPeers := without peer (connectedPeers s);
     signalListeners := signalListeners s;
     log := Destroy peer :: log s |}.

(** [disconnectPeer], lines 112-118. *)
Definition disconnectPeer (sessionId : string) (s : State) : State :=
  match JsMap.get sessionId (peers s) with
  | Some peer =>
      let s1 := destroy peer s in
      {| peers := JsMap.delete sessionId (peers s1); nextPeer := nextPeer s1;
         connectedPeers := connectedPeers s1;
         signalListeners := signalListeners s1; log := log s1 |}
  | None => s
  end.

(** [getAllConnectedPeers], lines 120-125. *)
Definition getAllConnectedPeers (s : State) : list string :=
  filter (fun sessionId =>
            match JsMap.get sessionId (peers s) with
            | Some peer => isConnected peer s
            | None => false
            end)
         (JsMap.keys (peers s)).

(** [dispose], lines 127-133. *)
Definition dispose (s : State) : State :=
  let s1 := fold_left (fun q e => destroy (snd e) q) (peers s) s in
  {| peers := []; nextPeer := nextPeer s1;
     connectedPeers := connectedPeers s1;
     signalListeners := []; log := log s1 |}.

Definition done (s : State) : list Effect := rev (log s).

End WebRTCServer.

Module SignalingRoute.

(** The fields of the body that the route reads; a [signal] is an object
    (here its content) or is missing. *)
Record Request := {
  method : string;
  bodySignal : option string;
  bodyClientId : option string
}.

(** Where a handler waits: for the answer signal of its peer (its timeout
    is armed), or in [createSession] for the websocket [ws]. *)
Inductive Stage :=
| AwaitSignal
| AwaitSession (ws : RealtimeProxy.SocketId) (answerSignal : string).

Record Waiting := {
  handlerOf : HandlerId;
  sessionOf : string;
  stage : Stage
}.

(** The module variables, lines 7-11, the handlers that wait, and the
    responses given (newest first). *)
Record State := {
  webrtcServer : option WebRTCServer.State;
  realtimeProxy : option RealtimeProxy.State;
  activeSessions : list string;
  waiting : list Waiting;
  nextHandler : HandlerId;
  responses : list (HandlerId * Response)
}.

Definition initial : State :=
  {| webrtcServer := None; realtimeProxy := None; activeSessions := [];
     waiting := []; nextHandler := 0; responses := [] |}.

Definition setServer (s : option WebRTCServer.State) (st : State) : State :=
  {| webrtcServer := s; realtimeProxy := realtimeProxy st;
     activeSessions := activeSessions st; waiting := waiting st;
     nextHandler := nextHandler st; responses := responses st |}.

Definition setProxy (p : option RealtimeProxy.State) (st : State) : State :=
  {| webrtcServer := webrtcServer st; realtimeProxy := p;
     activeSessions := activeSessions st; waiting := waiting st;
     nextHandler := nextHandler st; responses := responses st |}.

Definition setActive (a : list string) (st : State) : State :=
  {| webrtcServer := webrtcServer st; realtimeProxy := realtimeProxy st;
     activeSessions := a; waiting := waiting st;
     nextHandler := nextHandler st; responses := responses st |}.

Definition setWaiting (w : list Waiting) (st : State) : State :=
  {| webrtcServer := webrtcServer st; realtimeProxy := realtimeProxy st;
     activeSessions := activeSessions st; waiting := w;
     nextHandler := nextHandler st; responses := responses st |}.

Definition respond (h : HandlerId) (r : Response) (st : State) : State :=
  {| webrtcServer := webrtcServer st; realtimeProxy := realtimeProxy st;
     activeSessions := activeSessions st; waiting := waiting st;
     nextHandler := nextHandler st; responses := (h, r) :: responses st |}.

Definition called (st : State) : State :=
  {| webrtcServer := webrtcServer st; realtimeProxy := realtimeProxy st;
     activeSessions := activeSessions st; waiting := waiting st;
     nextHandler := S (nextHandler st); responses := responses st |}.

(** [Set.has], [Set.add], [Set.delete] *)
Definition has (sessionId : string) (a : list string) : bool :=
  existsb (String.eqb sessionId) a.

Definition add (sessionId : string) (a : list string) : list string :=
  if has sessionId a then a else a ++ [sessionId].

Definition delete (sessionId : string) (a : list string) : list string :=
  filter (fun x => negb (x =? sessionId)%string) a.

Definition notWaiting (h : HandlerId) (w : list Waiting) : list Waiting :=
  filter (fun x => negb (handlerOf x =? h)%nat) w.

Definition awaitsSignal (h : HandlerId) (w : list Waiting) : bool :=
  existsb (fun x => (handlerOf x =? h)%nat &&
                    match stage x with AwaitSignal => true | _ => false end) w.

Definition failed (message : string) : Response :=
  {| status := 500;
     body := failureBody "Failed to establish WebRTC connection" message |}.

Definition reused (sessionId : string) : Response :=
  {| status := 200;
     body := JObject [("sessionId", JString sessionId);
                      ("message", JString "Session already active");
                      ("reused", JBool true)] |}.

Definition answered (sessionId answerSignal : string) : Response :=
  {| status := 200;
     body := JObject [("sessionId", JString sessionId);
                      ("signal", JString answerSignal);
                      ("reused", JBool false)] |}.

(** [initializeServers], lines 14-65: the WebRTC server is made before the
    key is looked at. *)
Definition initializeServers (apiKey : option string) (st : State)
  : State * option string :=
  let st1 := match webrtcServer st with
             | Some _ => st
             | None => setServer (Some WebRTCServer.initial) st
             end in
  match realtimeProxy st1 with
  | Some _ => (st1, None)
  | None => if truthy apiKey
            then (setProxy (Some RealtimeProxy.initial) st1, None)
            else (st1, Some keyRequired)
  end.

Definition onServer (f : WebRTCServer.State -> WebRTCServer.State)
  (st : State) : State :=
  match webrtcServer st with
  | Some s => setServer (Some (f s)) st
  | None => st
  end.

Definition onProxy (f : RealtimeProxy.State -> RealtimeProxy.State)
  (st : State) : State :=
  match realtimeProxy st with
  | Some p => setProxy (Some (f p)) st
  | None => st
  end.

(** [handler] up to its first [await], lines 67-123; [uuid] is what
    [uuidv4()] would return. *)
Definition handler (apiKey : option string) (uuid : string) (req : Request)
  (st : State) : State :=
  let h := nextHandler st in
  let st0 := called st in
  if negb (method req =? "POST")%string then
    respond h {| status := 405; body := errorBody "Method not allowed" |} st0
  else
    match initializeServers apiKey st0 with
    | (st1, Some message) => respond h (failed message) st1
    | (st1, None) =>
        match bodySignal req with
        | None =>
            respond h {| status := 400;
                         body := errorBody "Signal data is required" |} st1
        | Some signal =>
            let sessionId := if truthy (bodyClientId req)
                             then textOf (bodyClientId req) else uuid in
            if has sessionId (activeSessions st1) then
              respond h (reused sessionId) st1
            else
              setWaiting
                (waiting st1 ++ [{| handlerOf := h; sessionOf := sessionId;
                                    stage := AwaitSignal |}])
                (onServer
                   (fun s => WebRTCServer.onSignal h sessionId
                               (WebRTCServer.createPeerConnection
                                  sessionId (Some signal) s))
                   (setActive (add sessionId (activeSessions st1)) st1))
        end
    end.

(** The timeout of handler [h], lines 109-112, and the [catch], lines
    141-147. *)
Definition timeout (h : HandlerId) (st : State) : State :=
  match find (fun x => (handlerOf x =? h)%nat &&
                       match stage x with AwaitSignal => true | _ => false end)
             (waiting st) with
  | Some x =>
      respond h (failed "Signaling timeout")
        (setWaiting (notWaiting h (waiting st))
           (setActive (delete (sessionOf x) (activeSessions st)) st))
  | None => st
  end.

(** The handler [h] after its answer signal, lines 125-140, up to the
    [await] inside [createSession]. *)
Definition afterSignal (h : HandlerId) (sessionId answerSignal : string)
  (now : Z) (st : State) : State :=
  match realtimeProxy st with
  | Some p =>
      match RealtimeProxy.createSession sessionId now p with
      | Returned q =>
          setWaiting
            (notWaiting h (waiting st) ++
             [{| handlerOf := h; sessionOf := sessionId;
                 stage := AwaitSession (RealtimeProxy.nextSocket p)
                                       answerSignal |}])
            (setProxy (Some q) st)
      | Threw _ =>
          respond h (answered sessionId answerSignal)
            (setWaiting (notWaiting h (waiting st)) st)
      end
  | None => st
  end.

(** A peer made for [sessionId] emits [signal]: lines 52-54 of the server,
    then the [signalHandler]s, lines 114-120, in the order they were
    registered; each clears its timeout, removes itself and resolves its
    promise, and the handlers whose promise was pending go on. *)
Definition peerSignal (sessionId answerSignal : string) (now : Z)
  (st : State) : State :=
  match webrtcServer st with
  | Some s =>
      let resolved :=
        filter (fun l => (snd l =? sessionId)%string &&
                         awaitsSignal (fst l) (waiting st))
               (WebRTCServer.signalListeners s) in
      fold_left (fun q l => afterSignal (fst l) sessionId answerSignal now q)
                resolved
                (setServer (Some (WebRTCServer.removeListeners sessionId s)) st)
  | None => st
  end.






(** [onError], lines 36-39. *)
Definition peerError (sessionId : string) (st : State) : State :=
  setActive (delete sessionId (activeSessions st)) st.

(** The [close] listener of the server, then [onConnectionStateChange],
    lines 27-35. *)
Definition peerClose (peer : WebRTCServer.PeerId) (sessionId : string)
  (st : State) : State :=
  let st1 := onServer (WebRTCServer.onPeerClose peer sessionId) st in
  match realtimeProxy st1 with
  | Some p =>
      setActive (delete sessionId (activeSessions st1))
        (setProxy (Some (RealtimeProxy.closeSession sessionId p)) st1)
  | None => st1
  end.

(** A message of the proxy's websocket; [onAudioResponse], lines 51-56,
    forwards audio to the peer. *)
Definition socketMessage (data : RealtimeProxy.ServerMessage)
  (sessionId : string) (now : Z) (st : State) : State :=
  let st1 := onProxy (RealtimeProxy.handleOpenAIMessage data sessionId now) st in
  match data with
  | RealtimeProxy.AudioDelta (Some delta) =>
      if truthy (Some delta)
      then onServer (fun s => fst (WebRTCServer.sendAudioData sessionId delta s))
                    st1
      else st1
  | _ => st1
  end.

(** The [SIGTERM] listener, lines 151-159. *)
Definition sigterm (st : State) : State :=
  setActive []
    (onProxy RealtimeProxy.dispose (onServer WebRTCServer.dispose st)).

End SignalingRoute.

Module WS := WebRTCServer.
Module SR := SignalingRoute.

(** One request is waiting for the answer signal of its peer. *)
Definition exampleSignaling : SignalingRoute.State :=
  SignalingRoute.handler (Some "sk-1") "uuid-0"
    {| SignalingRoute.method := "POST";
       SignalingRoute.bodySignal := Some "offer-0";
       SignalingRoute.bodyClientId := None |}
    SignalingRoute.initial.


(* ------------------------------------------------------------------------- *)
(** ** Basic facts *)

Ltac world w :=
  destruct w as [[?isListening ?wakeWordDetected ?conversationActive
                  ?error ?recognitionRef ?silenceTimerRef]
                 [?isConnected ?isConnecting ?isSpeaking ?error
                  ?sessionRef ?agentRef ?isConnectingRef]
                 [?recognizing ?timers ?nextTimer ?nextSession
                  ?inflight ?listeners ?log]].

Lemma startsWith_spec : forall s p,
  JS.startsWith s p = true <-> exists r, s = (p ++ r)%string.
Proof.
  intros s p. revert s. induction p as [|b p IH]; intros s; simpl.
  - split; [intros _; exists s; reflexivity | reflexivity].
  - destruct s as [|a s]; simpl.
    + split; [discriminate | intros [r H]; discriminate].
    + rewrite andb_true_iff, Ascii.eqb_eq, IH. split.
      * intros [-> [r ->]]. exists r. reflexivity.
      * intros [r [= -> ->]]. split; [reflexivity | exists r; reflexivity].
Qed.

(** [includes] is the substring test. *)
Lemma includes_spec : forall s p,
  JS.includes s p = true <-> exists a r, s = (a ++ p ++ r)%string.
Proof.
  intros s p. induction s as [|c s IH]; simpl.
  - rewrite orb_false_r, startsWith_spec. split.
    + intros [r H]. exists EmptyString, r. exact H.
    + intros [a [r H]]. destruct a; simpl in H.
      * exists r. exact H.
      * discriminate.
  - rewrite orb_true_iff, startsWith_spec, IH. split.
    + intros [[r H] | [a [r ->]]].
      * exists EmptyString, r. exact H.
      * exists (String c a), r. reflexivity.
    + intros [a [r H]]. destruct a as [|c' a]; simpl in H.
      * left. exists r. exact H.
      * right. injection H as -> ->. exists a, r. reflexivity.
Qed.

Lemma append_assoc : forall a b c : string,
  ((a ++ b) ++ c = a ++ (b ++ c))%string.
Proof.
  induction a as [|x a IH]; intros b c; simpl; [reflexivity|].
  rewrite IH. reflexivity.
Qed.

Lemma includes_empty : forall s, JS.includes s EmptyString = true.
Proof. destruct s; reflexivity. Qed.

Lemma includes_nonempty : forall s b p,
  JS.includes s (String b p) = true -> s <> EmptyString.
Proof. intros s b p H ->. discriminate. Qed.

Lemma trimStart_length : forall s, String.length (JS.trimStart s) <= String.length s.
Proof.
  induction s as [|x s IH]; simpl; [lia|].
  destruct (JS.isWhiteSpace x); simpl; lia.
Qed.

Lemma trimEnd_length : forall s, String.length (JS.trimEnd s) <= String.length s.
Proof.
  induction s as [|x s IH]; simpl; [lia|].
  destruct (JS.trimEnd s); [destruct (JS.isWhiteSpace x)|]; simpl in *; lia.
Qed.

Lemma trimStart_fixed_head : forall b p,
  JS.trimStart (String b p) = String b p -> JS.isWhiteSpace b = false.
Proof.
  intros b p H. simpl in H. destruct (JS.isWhiteSpace b); [|reflexivity].
  pose proof (trimStart_length p) as L. rewrite H in L. simpl in L. lia.
Qed.

Lemma trimStart_suffix : forall s, exists a, s = (a ++ JS.trimStart s)%string.
Proof.
  induction s as [|x s [a IH]]; simpl.
  - exists EmptyString. reflexivity.
  - destruct (JS.isWhiteSpace x).
    + exists (String x a). simpl. rewrite <- IH. reflexivity.
    + exists EmptyString. reflexivity.
Qed.

Lemma trimEnd_prefix : forall s, exists r, s = (JS.trimEnd s ++ r)%string.
Proof.
  induction s as [|x s [r IH]]; simpl.
  - exists EmptyString. reflexivity.
  - destruct (JS.trimEnd s) as [|y t] eqn:E.
    + destruct (JS.isWhiteSpace x).
      * exists (String x s). reflexivity.
      * exists s. reflexivity.
    + exists r. simpl. rewrite IH at 1. reflexivity.
Qed.

Lemma trim_fixed : forall p,
  JS.trim p = p -> JS.trimStart p = p /\ JS.trimEnd p = p.
Proof.
  intros p H. unfold JS.trim in H.
  assert (S : JS.trimStart p = p).
  { destruct (trimStart_suffix p) as [a E].
    pose proof (trimEnd_length (JS.trimStart p)) as L1. rewrite H in L1.
    assert (L2 : String.length p = String.length a + String.length (JS.trimStart p)).
    { rewrite E at 1. clear. induction a; simpl; [reflexivity|]. rewrite IHa. reflexivity. }
    destruct a; [simpl in E; symmetry; exact E|]. simpl in L2. lia. }
  split; [exact S|]. rewrite S in H. exact H.
Qed.

Lemma includes_trimStart : forall s p,
  JS.trimStart p = p ->
  JS.includes s p = true -> JS.includes (JS.trimStart s) p = true.
Proof.
  intros s p P. induction s as [|x s IH]; intros H; [exact H|].
  cbn [JS.trimStart]. destruct (JS.isWhiteSpace x) eqn:Wx; [|exact H].
  cbn [JS.includes] in H. apply orb_true_iff in H. destruct H as [H|H].
  - destruct p as [|b p]; [apply includes_empty|].
    simpl in H. apply andb_true_iff in H. destruct H as [H _].
    apply Ascii.eqb_eq in H. subst b.
    rewrite (trimStart_fixed_head x p P) in Wx. discriminate.
  - apply IH, H.
Qed.

Lemma trimEnd_fixed_tail : forall b p,
  JS.trimEnd (String b p) = String b p ->
  (p = EmptyString /\ JS.isWhiteSpace b = false) \/
  (p <> EmptyString /\ JS.trimEnd p = p).
Proof.
  intros b p H. simpl in H. destruct (JS.trimEnd p) as [|y t] eqn:E.
  - destruct (JS.isWhiteSpace b); [discriminate|].
    injection H as <-. left. split; reflexivity.
  - injection H as <-. right. split; [discriminate|reflexivity].
Qed.

Lemma startsWith_trimEnd : forall p s,
  JS.trimEnd p = p ->
  JS.startsWith s p = true -> JS.startsWith (JS.trimEnd s) p = true.
Proof.
  induction p as [|b p IH]; intros s P H; [reflexivity|].
  destruct s as [|a s]; [discriminate|].
  simpl in H. apply andb_true_iff in H. destruct H as [Hab H].
  apply Ascii.eqb_eq in Hab. subst a.
  destruct (trimEnd_fixed_tail b p P) as [[-> W] | [N Q]].
  - cbn [JS.trimEnd]. destruct (JS.trimEnd s); [rewrite W|];
      simpl; rewrite Ascii.eqb_refl; reflexivity.
  - specialize (IH s Q H). cbn [JS.trimEnd].
    destruct (JS.trimEnd s) as [|y t] eqn:E.
    + destruct p; [contradiction|discriminate].
    + simpl. rewrite Ascii.eqb_refl. exact IH.
Qed.

Lemma includes_trimEnd : forall s p,
  JS.trimEnd p = p ->
  JS.includes s p = true -> JS.includes (JS.trimEnd s) p = true.
Proof.
  intros s p P. destruct p as [|b p]; [intros _; apply includes_empty|].
  induction s as [|x s IH]; intros H; [discriminate|].
  cbn [JS.includes] in H. apply orb_true_iff in H. destruct H as [H|H].
  - pose proof (startsWith_trimEnd _ _ P H) as S.
    destruct (JS.trimEnd (String x s)); simpl in *; rewrite S; reflexivity.
  - specialize (IH H). cbn [JS.trimEnd].
    destruct (JS.trimEnd s) as [|y t] eqn:E; [discriminate|].
    cbn [JS.includes]. cbn [JS.includes] in IH. rewrite IH. apply orb_true_r.
Qed.

(** Trimming does not change the test when the pattern itself has no white
    space around it. *)
Lemma includes_trim : forall s p,
  JS.trim p = p -> JS.includes (JS.trim s) p = JS.includes s p.
Proof.
  intros s p P. destruct (trim_fixed p P) as [PS PE].
  destruct (JS.includes s p) eqn:I.
  - unfold JS.trim. apply includes_trimEnd, includes_trimStart; assumption.
  - destruct (JS.includes (JS.trim s) p) eqn:J; [|reflexivity].
    apply includes_spec in J. destruct J as (a & r & J).
    destruct (trimStart_suffix s) as [a0 E0].
    destruct (trimEnd_prefix (JS.trimStart s)) as [r0 E1].
    unfold JS.trim in J. rewrite J in E1. rewrite E1 in E0.
    assert (T : JS.includes s p = true).
    { apply includes_spec. exists (a0 ++ a)%string, (r ++ r0)%string.
      rewrite E0 at 1. rewrite !append_assoc. reflexivity. }
    congruence.
Qed.

Lemma occurrences_log : forall k w,
  occurrences k w = length (filter k (Host.log (host w))).
Proof.
  intros k w. unfold occurrences, trace.
  rewrite filter_rev, length_rev. reflexivity.
Qed.

Lemma occurrences_extend : forall k w w' added,
  trace w' = trace w ++ added ->
  occurrences k w' = occurrences k w + length (filter k added).
Proof.
  intros k w w' added T. unfold occurrences.
  rewrite T, filter_app, length_app. reflexivity.
Qed.

Lemma find_withoutTimer : forall id ts,
  find (fun t => (timer_id t =? id)%nat) (Browser.withoutTimer id ts) = None.
Proof.
  intros id ts. induction ts as [|t ts IH]; simpl; [reflexivity|].
  destruct (timer_id t =? id)%nat eqn:E; simpl; [exact IH|].
  rewrite E. exact IH.
Qed.

Lemma succ_eqb : forall n : nat, (S n =? n)%nat = false.
Proof. intro n. apply Nat.eqb_neq. lia. Qed.



(* ------------------------------------------------------------------------- *)
(** ** The silence timer *)

(** Restarting the countdown: the pending one is cancelled, a new one of the
    configured duration is the one the ref holds. *)
Lemma reset_effect : forall o c w,
  let w' := W.resetSilenceTimer o c w in
  let id := Host.nextTimer (host w) in
  trace w' =
    trace w ++ cancelled w ++ [SetTimeout id (W.timeoutOf o) (SilenceExpiry c)] /\
  occurrences isCountdownStart w' = S (occurrences isCountdownStart w) /\
  Wake.silenceTimerRef (wake w') = Some id /\
  Browser.findTimer id w' =
    Some {| timer_id := id; timer_left := W.timeoutOf o;
            timer_task := SilenceExpiry c |}.
Proof.
  intros o c w; world w; destruct silenceTimerRef as [old|]; cbv zeta;
    rewrite !occurrences_log;
    unfold trace, cancelled, Browser.findTimer; cbn -[Nat.eqb];
    rewrite Nat.eqb_refl, <- ?app_assoc; repeat split; reflexivity.
Qed.

(** Pausing starts nothing and empties the ref. *)
Lemma pause_effect : forall w,
  occurrences isCountdownStart (W.pauseSilenceTimer w) =
    occurrences isCountdownStart w /\
  Wake.silenceTimerRef (wake (W.pauseSilenceTimer w)) = None.
Proof.
  intros w; world w; destruct silenceTimerRef as [old|];
    rewrite !occurrences_log; split; reflexivity.
Qed.

Lemma pause_discards : forall w old,
  Wake.silenceTimerRef (wake w) = Some old ->
  Browser.findTimer old (W.pauseSilenceTimer w) = None.
Proof.
  intros w old H; world w. cbn in H. subst silenceTimerRef.
  unfold Browser.findTimer. cbn. apply find_withoutTimer.
Qed.


(* ------------------------------------------------------------------------- *)
(** ** The wake-word gate *)

(** A result event whose handler passes the test of lines 121-125. *)
Lemma wake_effect : forall env c rs w,
  W.wakeGuard (Page.wakeOptions env) c (W.transcriptOf rs) = true ->
  W.hasRecognition w = true ->
  let w' := W.handleSpeechResult (Page.wakeOptions env) c rs w in
  let id := Host.nextTimer (host w) in
  trace w' = trace w ++ [RecognitionStop; PlayTone] ++ cancelled w ++
             [SetTimeout id 10000 (SilenceExpiry c); WakeCallback;
              SetTimeout (S id) 800 SettleConnect] /\
  Host.recognizing (host w') = false /\
  Wake.wakeWordDetected (wake w') = true /\
  Wake.conversationActive (wake w') = true /\
  Wake.silenceTimerRef (wake w') = Some id /\
  Browser.findTimer id w' =
    Some {| timer_id := id; timer_left := 10000; timer_task := SilenceExpiry c |} /\
  agent w' = agent w.
Proof.
  intros env c rs w G R. unfold W.handleSpeechResult. rewrite G.
  world w. cbn in R. subst recognitionRef.
  unfold cancelled, trace, Browser.findTimer.
  destruct silenceTimerRef as [old|]; cbn -[Nat.eqb];
    rewrite ?Nat.eqb_refl, ?succ_eqb; cbn -[Nat.eqb];
    rewrite ?Nat.eqb_refl, ?succ_eqb;
    repeat rewrite <- app_assoc; repeat split; reflexivity.
Qed.

(** A result event whose handler fails the test changes nothing. *)
Lemma no_wake_effect : forall o c rs w,
  W.wakeGuard o c (W.transcriptOf rs) = false ->
  W.handleSpeechResult o c rs w = w.
Proof.
  intros o c rs w G. unfold W.handleSpeechResult. rewrite G. reflexivity.
Qed.

(** For a wake word without white space around it the test is the plain
    substring test on the lower-cased text: trimming changes nothing. *)
Lemma wakeGuard_untrimmed : forall o c rs,
  JS.trim (JS.toLowerCase (W.wakeWord o)) = JS.toLowerCase (W.wakeWord o) ->
  W.wakeGuard o c (W.transcriptOf rs) =
    negb (cap_conversationActive c) && negb (cap_wakeWordDetected c) &&
    JS.includes (JS.toLowerCase (JS.join rs)) (JS.toLowerCase (W.wakeWord o)).
Proof.
  intros o c rs H. unfold W.wakeGuard, W.transcriptOf.
  rewrite (includes_trim _ _ H). reflexivity.
Qed.

(** A handler that sees the conversation as active fails the test. *)
Lemma guard_sees_conversation : forall o c t,
  cap_conversationActive c = true -> W.wakeGuard o c t = false.
Proof.
  intros o c t H. unfold W.wakeGuard. rewrite H. reflexivity.
Qed.

(** With handlers that saw the latest state, a result event during a
    conversation would change nothing. *)
Lemma fresh_handler_ignores_results : forall env rs w w',
  Wake.conversationActive (wake w) = true ->
  Page.step env Page.freshBinding (Page.SpeechResult rs) w = Some w' ->
  w' = w.
Proof.
  intros env rs w w' C S. cbn in S.
  destruct (W.hasRecognition w); [|discriminate]. injection S as <-.
  apply no_wake_effect, guard_sees_conversation. exact C.
Qed.

(** The handler the mount effect installed passes the test on every
    transcript that contains the wake word, whatever the state. *)
Lemma installed_handler_always_wakes : forall env rs w,
  W.hasRecognition w = true ->
  JS.includes (W.transcriptOf rs) (JS.toLowerCase (Page.wakeWord env)) = true ->
  exists w',
    Page.step env Page.reactBinding (Page.SpeechResult rs) w = Some w' /\
    occurrences isWakeCallback w' = S (occurrences isWakeCallback w).
Proof.
  intros env rs w R I.
  destruct (wake_effect env Page.firstRender rs w I R) as (T & _).
  eexists. split; [cbn; rewrite R; reflexivity|].
  rewrite (occurrences_extend _ _ _ _ T), !filter_app, !length_app.
  unfold cancelled. destruct (Wake.silenceTimerRef (wake w)); cbn; lia.
Qed.


Lemma flags_handleSpeechResult : forall o c rs w,
  flagsAgree w ->
  (forall v, flagsAgree v -> flagsAgree (W.onWakeWordDetected o v)) ->
  flagsAgree (W.handleSpeechResult o c rs w).
Proof.
  intros o c rs w F K. unfold W.handleSpeechResult.
  destruct (W.wakeGuard o c (W.transcriptOf rs)); [|exact F].
  unfold seq. apply K. unfold flagsAgree.
  world w; destruct recognitionRef, silenceTimerRef; reflexivity.
Qed.

Lemma flags_silenceExpired : forall o c w,
  (forall f v, W.onConversationTimeout o = Some f ->
               flagsAgree v -> flagsAgree (f v)) ->
  flagsAgree (W.silenceExpired o c w).
Proof.
  intros o c w K. unfold W.silenceExpired, seq.
  destruct (W.onConversationTimeout o) as [f|] eqn:E.
  - apply (K f _ eq_refl). unfold flagsAgree, when.
    world w; destruct recognitionRef, (cap_isListening c), recognizing; reflexivity.
  - unfold flagsAgree, when, skip.
    world w; destruct recognitionRef, (cap_isListening c), recognizing; reflexivity.
Qed.

Lemma flags_pause : forall w, flagsAgree w -> flagsAgree (W.pauseSilenceTimer w).
Proof. intros w F; world w; destruct silenceTimerRef; exact F. Qed.

Lemma flags_reset : forall o c w,
  flagsAgree w -> flagsAgree (W.resetSilenceTimer o c w).
Proof. intros o c w F; world w; destruct silenceTimerRef; exact F. Qed.

(* ------------------------------------------------------------------------- *)
(** ** The conversational link *)

Lemma wake_connect : forall w, wake (A.connect w) = wake w.
Proof.
  intros w; world w; destruct sessionRef, agentRef, isConnectingRef; reflexivity.
Qed.

Lemma wake_disconnect : forall w, wake (A.disconnect w) = wake w.
Proof. intros w; world w; destruct sessionRef; reflexivity. Qed.

Lemma wake_connectAfterToken : forall o w, wake (A.connectAfterToken o w) = wake w.
Proof. intros [| |m] w; reflexivity. Qed.

Lemma wake_connectAfterEstablish : forall o w,
  wake (A.connectAfterEstablish o w) = wake w.
Proof. intros [|m] w; world w; destruct sessionRef; reflexivity. Qed.




(** With an agent, no lock and no session, [connect()] goes ahead. *)
Lemma connect_proceeds : forall w,
  Agent.agentRef (agent w) = true ->
  Agent.isConnectingRef (agent w) = false ->
  Agent.sessionRef (agent w) = None ->
  trace (A.connect w) = trace w ++ [FetchToken] /\
  Agent.isConnectingRef (agent (A.connect w)) = true.
Proof.
  intros w; world w; cbn; intros -> -> ->. split; reflexivity.
Qed.

(** A failed token request: the [catch] block runs, nothing else. *)
Lemma failed_token_request : forall o w,
  o <> ResponseOk ->
  let w' := A.connectAfterToken o w in
  Agent.isConnectingRef (agent w') = false /\
  Agent.isConnecting (agent w') = false /\
  (exists msg, Agent.error (agent w') = Some msg) /\
  Agent.sessionRef (agent w') = Agent.sessionRef (agent w) /\
  trace w' = trace w.
Proof.
  intros [| |m] w H; [contradiction| |]; cbn;
    repeat split; try reflexivity; eexists; reflexivity.
Qed.

(** A failed establishment: the [catch] block runs, and the session made for
    the attempt stays in [sessionRef]. *)
Lemma failed_establishment : forall msg w,
  let w' := A.connectAfterEstablish (EstablishThrew msg) w in
  Agent.isConnectingRef (agent w') = false /\
  Agent.isConnecting (agent w') = false /\
  Agent.error (agent w') = Some msg /\
  Agent.sessionRef (agent w') = Agent.sessionRef (agent w) /\
  trace w' = trace w.
Proof. intros msg w. cbn. repeat split; reflexivity. Qed.

(** A held session makes [connect()] return at once. *)
Lemma connect_ignored_with_session : forall w s,
  Agent.agentRef (agent w) = true ->
  Agent.sessionRef (agent w) = Some s ->
  A.connect w = w.
Proof.
  intros w s; world w; cbn; intros -> ->.
  destruct isConnectingRef; reflexivity.
Qed.




(* ------------------------------------------------------------------------- *)
(** ** The microphone handoff *)




(** The same run ends in the same way when every handler sees the latest
    state. *)
Lemma fresh_binding_same_run :
  exists w,
    Page.run None Page.freshBinding exampleToggleDuringSettle
             (Page.mounted true) = Some w /\
    Host.recognizing (host w) = true /\
    Agent.isConnected (agent w) = true.
Proof.
  eexists. split; [vm_compute; reflexivity|]. split; reflexivity.
Qed.

(** An expiry callback that captured [isListening = true] starts the speech
    engine first and closes the session afterwards. *)
Lemma timeout_restarts_before_disconnect :
  exists w,
    Page.run None Page.freshBinding exampleSilentConversation
             (Page.mounted true) = Some w /\
    trace w =
      [RecognitionStart; RecognitionStop; PlayTone;
       SetTimeout 1 10000
         (SilenceExpiry {| cap_isListening := true;
                           cap_wakeWordDetected := false;
                           cap_conversationActive := false |});
       WakeCallback; SetTimeout 2 800 SettleConnect;
       FetchToken; NewSession 0; Establish 0;
       RecognitionStart; TimeoutCallback; SessionClose 0].
Proof.
  eexists. split; [vm_compute; reflexivity|]. reflexivity.
Qed.

(* ------------------------------------------------------------------------- *)
(** ** The connect lock *)




(** C3 fails on the code when the establishment fails.  The token arrives,
    the session object is created and stored, [session.connect()] rejects:
    the [catch] block clears the lock and sets the error, but the session
    object stays in [sessionRef], and the next [connect()] returns at once
    without asking for a token. *)
Theorem establish_failure_keeps_session :
  exists w,
    A.moves [A.CallConnect; A.GotToken ResponseOk;
             A.GotEstablish 0 (EstablishThrew "ICE connection failed")]
            (Page.mounted true) = Some w /\
    Agent.isConnectingRef (agent w) = false /\
    Agent.error (agent w) = Some "ICE connection failed"%string /\
    Agent.isConnected (agent w) = false /\
    Agent.sessionRef (agent w) = Some 0 /\
    A.connect w = w /\
    occurrences isFetchToken (A.connect w) = 1.
Proof.
  eexists. split; [vm_compute; reflexivity|].
  repeat split; reflexivity.
Qed.

(** What does hold of C3: after a failed token request nothing is held and
    the next [connect()] goes ahead. *)
Lemma token_failure_recovers : forall o w,
  o <> ResponseOk ->
  Agent.agentRef (agent w) = true ->
  Agent.sessionRef (agent w) = None ->
  let w' := A.connectAfterToken o w in
  Agent.sessionRef (agent w') = None /\
  Agent.isConnectingRef (agent w') = false /\
  trace (A.connect w') = trace w ++ [FetchToken].
Proof.
  intros o w H Ag S0. cbv zeta.
  destruct (failed_token_request o w H) as (L & _ & _ & S1 & T).
  rewrite S0 in S1. split; [exact S1|]. split; [exact L|].
  rewrite <- T. apply connect_proceeds; [|exact L|exact S1].
  destruct o as [| |m]; [contradiction| |]; exact Ag.
Qed.

(** After [disconnect()] the next [connect()] goes ahead, whatever failed
    before. *)
Lemma disconnect_then_connect : forall w,
  Agent.agentRef (agent w) = true ->
  exists before,
    trace (A.connect (A.disconnect w)) = before ++ [FetchToken].
Proof.
  intros w Ag. exists (trace (A.disconnect w)).
  apply connect_proceeds.
  - world w. cbn in Ag. destruct sessionRef; exact Ag.
  - world w; destruct sessionRef; reflexivity.
  - world w; destruct sessionRef; reflexivity.
Qed.

(** C9.  [disconnect()] always returns; whatever the state of the link, it
    leaves the status Disconnected, no session and the lock cleared, and a
    second call changes nothing more. *)
Theorem disconnect_idempotent_total :
  forall w : World,
    let w' := A.disconnect w in
    Agent.isConnected (agent w') = false /\
    Agent.isConnecting (agent w') = false /\
    Agent.sessionRef (agent w') = None /\
    Agent.isConnectingRef (agent w') = false /\
    A.disconnect w' = w'.
Proof.
  intros w; world w; destruct sessionRef; cbv; repeat split; reflexivity.
Qed.

(* ------------------------------------------------------------------------- *)
(** ** Wake detection *)

(** C4 fails on the code.  The handler that receives the transcripts is the
    one the mount effect installed: its [conversationActive] and
    [wakeWordDetected] are those of the first render.  A second transcript
    with the wake word, delivered while the conversation is active, fires the
    wake callback again. *)
Theorem wake_refires_during_conversation :
  exists w1 w2,
    Page.run None Page.reactBinding
             [Page.ClickMic; Page.SpeechResult ["Hey guide"%string]]
             (Page.mounted true) = Some w1 /\
    Wake.conversationActive (wake w1) = true /\
    occurrences isWakeCallback w1 = 1 /\
    Page.step None Page.reactBinding
              (Page.SpeechResult ["Hey guide"%string]) w1 = Some w2 /\
    occurrences isWakeCallback w2 = 2.
Proof.
  eexists. eexists. split; [vm_compute; reflexivity|].
  split; [reflexivity|]. split; [reflexivity|].
  split; [vm_compute; reflexivity|]. reflexivity.
Qed.



(** C10.  In every state the page can reach, with handlers bound in either
    way, [wakeWordDetected] and [conversationActive] are equal. *)
Theorem wake_flags_agree :
  forall env bind w,
    Page.reachable env bind w ->
    Wake.wakeWordDetected (wake w) = Wake.conversationActive (wake w).
Proof.
  intros env bind w R. change (flagsAgree w).
  induction R as [sr | w e w' R IH S].
  - destruct sr; reflexivity.
  - destruct e; cbn [Page.step] in S.
    + destruct (Agent.isConnecting (agent w)); [discriminate|]. injection S as <-.
      unfold Page.handleToggleListening. destruct (Wake.isListening (wake w)).
      * unfold seq, flagsAgree. rewrite wake_disconnect.
        world w; destruct recognitionRef, silenceTimerRef; reflexivity.
      * world w; destruct recognitionRef, recognizing; exact IH.
    + destruct (Page.error w); [|discriminate]. injection S as <-. exact IH.
    + destruct (W.hasRecognition w); [|discriminate]. injection S as <-.
      apply flags_handleSpeechResult; [exact IH|]. intros v Fv. exact Fv.
    + destruct (W.hasRecognition w); [|discriminate]. injection S as <-.
      unfold W.handleSpeechError. destruct (String.eqb code "no-speech"); exact IH.
    + destruct (W.hasRecognition w); [|discriminate]. injection S as <-.
      unfold seq, W.handleSpeechEnd.
      destruct (cap_isListening _ && negb (cap_conversationActive _)); exact IH.
    + destruct (forallb _ _); [|discriminate]. injection S as <-. exact IH.
    + destruct (Browser.findTimer id w) as [t|]; [|discriminate].
      destruct (timer_left t =? 0)%N; [|discriminate]. injection S as <-.
      unfold seq. destruct (timer_task t) as [c|c|]; cbn [Page.runTask].
      * apply flags_silenceExpired. cbn. intros f v [= <-] Fv.
        unfold flagsAgree, Page.onConversationTimeout.
        rewrite wake_disconnect. exact Fv.
      * unfold W.restartRecognition, when.
        world w; cbn;
          destruct recognitionRef, (cap_isListening c),
                   (cap_conversationActive c), recognizing; exact IH.
      * unfold flagsAgree. rewrite wake_connect. exact IH.
    + unfold Browser.resume in S.
      destruct (Browser.removeFirst _ _); [|discriminate]. injection S as <-.
      unfold flagsAgree. rewrite wake_connectAfterToken. exact IH.
    + unfold Browser.resume in S.
      destruct (Browser.removeFirst _ _); [|discriminate]. injection S as <-.
      unfold flagsAgree. rewrite wake_connectAfterEstablish. exact IH.
    + destruct (existsb _ _); [|discriminate]. injection S as <-.
      destruct b; cbn; unfold seq.
      * apply flags_pause. exact IH.
      * apply flags_reset. exact IH.
      * apply flags_pause. exact IH.
      * exact IH.
Qed.

Lemma wake_flags_agree_witness :
  Wake.wakeWordDetected (wake exampleWoken) =
  Wake.conversationActive (wake exampleWoken).
Proof.
  apply (wake_flags_agree None Page.reactBinding).
  apply (Page.reach_step None Page.reactBinding exampleListening
           (Page.SpeechResult ["Hey "%string; "guide"%string])).
  - apply (Page.reach_step None Page.reactBinding (Page.mounted true) Page.ClickMic).
    + apply Page.reach_mounted.
    + reflexivity.
  - reflexivity.
Defined.

(* ------------------------------------------------------------------------- *)
(** ** The silence timer: pause and resume *)

(** C5.  In every state, and however long a pending countdown has already
    run, [pauseSilenceTimer()] followed by [resumeSilenceTimer()] leaves a
    pending countdown of the full configured duration, 10000 ms when the
    option is not given.  The pause itself discards the pending countdown:
    afterwards the ref is null and the timer it held is no longer pending. *)
Theorem pause_then_resume_full_countdown :
  forall (o : W.Options) (c : Captured) (w : World) (elapsed : N),
    let before := Page.elapse elapsed w in
    let paused := W.pauseSilenceTimer before in
    let resumed := W.resumeSilenceTimer o c paused in
    let id := Host.nextTimer (host w) in
    Wake.silenceTimerRef (wake paused) = None /\
    match Wake.silenceTimerRef (wake before) with
    | Some old => Browser.findTimer old paused = None
    | None => paused = before
    end /\
    Wake.silenceTimerRef (wake resumed) = Some id /\
    Browser.findTimer id resumed =
      Some {| timer_id := id; timer_left := W.timeoutOf o;
              timer_task := SilenceExpiry c |} /\
    trace resumed =
      trace paused ++ [SetTimeout id (W.timeoutOf o) (SilenceExpiry c)] /\
    W.timeoutOf o =
      match W.silenceTimeoutMs o with Some ms => ms | None => 10000%N end.
Proof.
  intros o c w elapsed before paused resumed id.
  destruct (pause_effect before) as [_ P].
  split; [exact P|]. split.
  - destruct (Wake.silenceTimerRef (wake before)) as [old|] eqn:E.
    + apply pause_discards. exact E.
    + subst paused. unfold W.pauseSilenceTimer. rewrite E. reflexivity.
  - destruct (reset_effect o c paused) as (T & _ & R & F).
    assert (I : Host.nextTimer (host paused) = id).
    { subst paused before id. world w; destruct silenceTimerRef; reflexivity. }
    rewrite I in T, R, F. unfold cancelled in T. fold paused in P.
    rewrite P in T. cbn [app] in T.
    repeat split; assumption.
Qed.


(* ------------------------------------------------------------------------- *)
(** ** Hosts without speech recognition *)

(** A step of a page without a speech engine leaves it so. *)
Lemma step_engineless : forall env bind e w w',
  engineless w -> Page.step env bind e w = Some w' -> engineless w'.
Proof.
  intros env bind e w w' (R & L & G) S. unfold engineless in *.
  destruct e; cbn [Page.step] in S; rewrite ?R in S; try discriminate.
  - destruct (Agent.isConnecting (agent w)); [discriminate|]. injection S as <-.
    unfold Page.handleToggleListening. rewrite L.
    world w. cbn in R, L, G. subst. cbn. auto.
  - destruct (Page.error w); [|discriminate]. injection S as <-. auto.
  - destruct (forallb _ _); [|discriminate]. injection S as <-. auto.
  - destruct (Browser.findTimer id w) as [t|]; [|discriminate].
    destruct (timer_left t =? 0)%N; [|discriminate]. injection S as <-.
    unfold seq. destruct (timer_task t) as [c|c|]; cbn [Page.runTask].
    + world w. cbn in R, L, G. subst. destruct sessionRef; cbn; auto.
    + world w. cbn in R, L, G. subst. cbn; auto.
    + world w. cbn in R, L, G. subst.
      destruct sessionRef, agentRef, isConnectingRef; cbn; auto.
  - unfold Browser.resume in S.
    destruct (Browser.removeFirst _ _); [|discriminate]. injection S as <-.
    destruct o; world w; cbn in *; auto.
  - unfold Browser.resume in S.
    destruct (Browser.removeFirst _ _); [|discriminate]. injection S as <-.
    destruct o; world w; destruct sessionRef; cbn in *; auto.
  - destruct (existsb _ _); [|discriminate]. injection S as <-.
    destruct b; world w; destruct silenceTimerRef; cbn in *; auto.
Qed.

(** No handler creates or drops the recognition object. *)
Lemma step_keeps_recognition : forall env bind e w w',
  Page.step env bind e w = Some w' -> W.hasRecognition w' = W.hasRecognition w.
Proof.
  intros env bind e w w' S.
  destruct e; cbn [Page.step] in S.
  - destruct (Agent.isConnecting (agent w)); [discriminate|]. injection S as <-.
    unfold Page.handleToggleListening.
    destruct (Wake.isListening (wake w)); world w;
      destruct recognitionRef, silenceTimerRef, sessionRef, recognizing; reflexivity.
  - destruct (Page.error w); [|discriminate]. injection S as <-. reflexivity.
  - destruct (W.hasRecognition w) eqn:R; [|discriminate]. injection S as <-.
    unfold W.handleSpeechResult.
    destruct (W.wakeGuard _ _ _); [|exact R].
    world w; cbn in R; subst; destruct silenceTimerRef; reflexivity.
  - destruct (W.hasRecognition w) eqn:R; [|discriminate]. injection S as <-.
    unfold W.handleSpeechError. destruct (String.eqb code "no-speech"); exact R.
  - destruct (W.hasRecognition w) eqn:R; [|discriminate]. injection S as <-.
    unfold seq, W.handleSpeechEnd.
    destruct (cap_isListening _ && negb (cap_conversationActive _)); exact R.
  - destruct (forallb _ _); [|discriminate]. injection S as <-. reflexivity.
  - destruct (Browser.findTimer id w) as [t|]; [|discriminate].
    destruct (timer_left t =? 0)%N; [|discriminate]. injection S as <-.
    unfold seq. destruct (timer_task t) as [c|c|]; cbn [Page.runTask].
    + destruct c as [[|] ? ?]; world w;
        destruct recognitionRef, recognizing, sessionRef; reflexivity.
    + destruct c as [[|] ? [|]]; world w;
        destruct recognitionRef, recognizing; reflexivity.
    + world w; destruct sessionRef, agentRef, isConnectingRef; reflexivity.
  - unfold Browser.resume in S.
    destruct (Browser.removeFirst _ _); [|discriminate]. injection S as <-.
    destruct o; reflexivity.
  - unfold Browser.resume in S.
    destruct (Browser.removeFirst _ _); [|discriminate]. injection S as <-.
    destruct o; world w; destruct sessionRef; reflexivity.
  - destruct (existsb _ _); [|discriminate]. injection S as <-.
    destruct b; world w; destruct silenceTimerRef; reflexivity.
Qed.

(** Without a recognition object the page never reports or runs the
    listening device. *)
Lemma reachable_engineless : forall env bind w,
  Page.reachable env bind w -> W.hasRecognition w = false -> engineless w.
Proof.
  intros env bind w R. induction R as [sr | w e w' R IH S]; intros H.
  - destruct sr; [discriminate|]. repeat split.
  - rewrite (step_keeps_recognition env bind e w w' S) in H.
    apply (step_engineless env bind e w w' (IH H) S).
Qed.




(* ------------------------------------------------------------------------- *)
(** ** The link as the page shows it *)

Ltac split_step H :=
  repeat match type of H with
  | (if ?b then _ else _) = Some _ => destruct b eqn:?
  | match ?x with _ => _ end = Some _ => destruct x eqn:?
  | None = Some _ => discriminate H
  end;
  try (injection H as <-).

Lemma step_linkCoherent : forall env bind e w w',
  linkCoherent w -> Page.step env bind e w = Some w' -> linkCoherent w'.
Proof.
  intros env bind e w w' L S. unfold linkCoherent, A.hasSession in *.
  destruct e; cbn [Page.step] in S; unfold Browser.resume in S;
    split_step S; world w; cbn in L; destruct L as (Ag & CS & CL & CC).
  - unfold Page.handleToggleListening.
    destruct isListening, recognitionRef, silenceTimerRef, sessionRef, recognizing;
      cbn in *; intuition congruence.
  - cbn in *; intuition congruence.
  - unfold W.handleSpeechResult. destruct (W.wakeGuard _ _ _);
      destruct recognitionRef, silenceTimerRef; cbn in *; intuition congruence.
  - unfold W.handleSpeechError. destruct (String.eqb code "no-speech");
      cbn in *; intuition congruence.
  - unfold seq, W.handleSpeechEnd.
    destruct (cap_isListening _ && negb (cap_conversationActive _));
      cbn in *; intuition congruence.
  - cbn in *; intuition congruence.
  - unfold seq. destruct (timer_task _) as [c|c|]; cbn [Page.runTask].
    + destruct c as [[|] ? ?];
        destruct recognitionRef, recognizing, sessionRef;
        cbn in *; intuition congruence.
    + destruct c as [[|] ? [|]]; destruct recognitionRef, recognizing;
        cbn in *; intuition congruence.
    + destruct sessionRef, agentRef, isConnectingRef;
        cbn in *; intuition congruence.
  - destruct o; cbn in *; intuition congruence.
  - destruct o; destruct sessionRef; cbn in *; intuition congruence.
  - destruct b; destruct silenceTimerRef; cbn in *; intuition congruence.
Qed.


(** X2.  In every state the page reaches the agent exists, so [connect()]
    never reports "Agent not initialized"; the page never shows the link as
    connected without a session, as connecting without the lock, or as
    connected and connecting at once. *)
Theorem link_status_coherent :
  forall env bind w,
    Page.reachable env bind w ->
    Agent.agentRef (agent w) = true /\
    (Agent.isConnected (agent w) = true -> A.hasSession w = true) /\
    (Agent.isConnecting (agent w) = true ->
     Agent.isConnectingRef (agent w) = true) /\
    (Agent.isConnected (agent w) = true ->
     Agent.isConnecting (agent w) = false).
Proof.
  intros env bind w R. change (linkCoherent w).
  induction R as [sr | w e w' R IH S].
  - destruct sr; repeat split; cbn; auto; discriminate.
  - apply (step_linkCoherent env bind e w w' IH S).
Qed.

(* ------------------------------------------------------------------------- *)
(** ** The timer table *)

Lemma in_withoutTimer : forall id ts t,
  In t (Browser.withoutTimer id ts) <-> In t ts /\ timer_id t <> id.
Proof.
  intros id ts t. unfold Browser.withoutTimer. rewrite filter_In.
  rewrite negb_true_iff, Nat.eqb_neq. reflexivity.
Qed.

Lemma nodup_withoutTimer : forall id ts,
  NoDup (map timer_id ts) -> NoDup (map timer_id (Browser.withoutTimer id ts)).
Proof.
  intros id ts. induction ts as [|t ts IH]; intros N; [exact N|].
  cbn in N |- *. inversion N as [|? ? Hn N']; subst.
  destruct (negb (timer_id t =? id)%nat); [|apply IH, N'].
  cbn. constructor; [|apply IH, N'].
  intros H. apply Hn. apply in_map_iff in H. destruct H as (u & E & H).
  apply in_map_iff. exists u. split; [exact E|].
  apply in_withoutTimer in H. apply H.
Qed.

Lemma table_without : forall id ts nt ref,
  tableInOrder ts nt ref -> tableInOrder (Browser.withoutTimer id ts) nt ref.
Proof.
  intros id ts nt ref (F & N & R & B & K). repeat split.
  - intros t H. apply F. apply in_withoutTimer in H. apply H.
  - apply nodup_withoutTimer, N.
  - intros t H. apply R. apply in_withoutTimer in H. apply H.
  - exact B.
  - intros t H. apply K. apply in_withoutTimer in H. apply H.
Qed.

(** Clearing the timer of the ref leaves no countdown pending. *)
Lemma table_withoutRef : forall ts nt ref,
  tableInOrder ts nt ref ->
  tableInOrder (withoutRef ref ts) nt ref /\
  tableInOrder (withoutRef ref ts) nt None /\
  (forall t, In t (withoutRef ref ts) -> isSilence t = false).
Proof.
  intros ts nt ref T.
  assert (Z : forall t, In t (withoutRef ref ts) -> isSilence t = false).
  { destruct T as (F & N & R & B & K). intros t H.
    destruct (isSilence t) eqn:S; [|reflexivity]. exfalso.
    destruct ref as [old|]; cbn [withoutRef] in H.
    - apply in_withoutTimer in H. destruct H as [H D].
      specialize (R t H S). congruence.
    - specialize (R t H S). discriminate. }
  assert (T' : tableInOrder (withoutRef ref ts) nt ref).
  { destruct ref as [old|]; cbn [withoutRef]; [apply table_without, T | exact T]. }
  split; [exact T'|]. split; [|exact Z].
  destruct T' as (F & N & R & B & K). repeat split; try assumption.
  - intros t H S. rewrite (Z t H) in S. discriminate.
  - discriminate.
  - discriminate.
Qed.

Lemma table_add : forall ts nt ref ms task,
  tableInOrder ts nt ref ->
  (forall c, task <> SilenceExpiry c) ->
  tableInOrder ({| timer_id := nt; timer_left := ms; timer_task := task |} :: ts)
               (S nt) ref.
Proof.
  intros ts nt ref ms task (F & N & R & B & K) P. repeat split.
  - intros t [<-|H]; cbn; [lia|]. specialize (F t H). lia.
  - cbn. constructor; [|exact N]. intros H. apply in_map_iff in H.
    destruct H as (u & E & H). specialize (F u H). lia.
  - intros t [<-|H] S.
    + unfold isSilence in S. cbn in S. destruct task; try discriminate.
      exfalso. apply (P c eq_refl).
    + apply R; assumption.
  - intros r E. specialize (B r E). lia.
  - intros t [<-|H] E.
    + cbn in E. specialize (B nt E). lia.
    + apply K; assumption.
Qed.

(** Restarting the countdown. *)
Lemma table_reset : forall ts nt ref ms c,
  tableInOrder ts nt ref ->
  tableInOrder ({| timer_id := nt; timer_left := ms;
                   timer_task := SilenceExpiry c |} :: withoutRef ref ts)
               (S nt) (Some nt).
Proof.
  intros ts nt ref ms c T.
  destruct (table_withoutRef ts nt ref T) as (_ & (F & N & R & B & K) & Z).
  repeat split.
  - intros t [<-|H]; cbn; [lia|]. specialize (F t H). lia.
  - cbn. constructor; [|exact N]. intros H. apply in_map_iff in H.
    destruct H as (u & E & H). specialize (F u H). lia.
  - intros t [<-|H] S; [reflexivity|].
    rewrite (Z t H) in S. discriminate.
  - intros r [= <-]. lia.
  - intros t [<-|H] E; [reflexivity|].
    injection E as E. specialize (F t H). lia.
Qed.

Lemma table_elapse : forall ts nt ref ms,
  tableInOrder ts nt ref ->
  tableInOrder (map (fun t => {| timer_id := timer_id t;
                                 timer_left := (timer_left t - ms)%N;
                                 timer_task := timer_task t |}) ts) nt ref.
Proof.
  intros ts nt ref ms (F & N & R & B & K). repeat split.
  - intros t H. apply in_map_iff in H. destruct H as (u & <- & H).
    cbn. apply F, H.
  - rewrite map_map. cbn. exact N.
  - intros t H S. apply in_map_iff in H. destruct H as (u & <- & H).
    apply (R u H S).
  - exact B.
  - intros t H E. apply in_map_iff in H. destruct H as (u & <- & H).
    apply (K u H E).
Qed.

Lemma step_timersInOrder : forall env bind e w w',
  timersInOrder w -> Page.step env bind e w = Some w' -> timersInOrder w'.
Proof.
  intros env bind e w w' T S. unfold timersInOrder in *.
  destruct e; cbn [Page.step] in S; unfold Browser.resume in S;
    split_step S; world w; cbn in T.
  - unfold Page.handleToggleListening.
    destruct (table_withoutRef _ _ _ T) as (T' & _).
    destruct isListening, silenceTimerRef, recognitionRef, sessionRef, recognizing;
      cbn in *; assumption.
  - exact T.
  - unfold W.handleSpeechResult. destruct (W.wakeGuard _ _ _); [|exact T].
    destruct silenceTimerRef as [old|]; destruct recognitionRef; cbn;
      (apply table_add; [|discriminate]).
    + apply (table_reset timers nextTimer (Some old) _ _ T).
    + apply (table_reset timers nextTimer (Some old) _ _ T).
    + apply (table_reset timers nextTimer None _ _ T).
    + apply (table_reset timers nextTimer None _ _ T).
  - unfold W.handleSpeechError. destruct (String.eqb code "no-speech"); exact T.
  - unfold seq, W.handleSpeechEnd.
    destruct (cap_isListening _ && negb (cap_conversationActive _)); cbn.
    + apply table_add; [exact T | discriminate].
    + exact T.
  - cbn. apply table_elapse, T.
  - unfold seq. pose proof (table_without id _ _ _ T) as T'.
    destruct (timer_task _) as [c|c|]; cbn [Page.runTask].
    + destruct c as [[|] ? ?];
        destruct recognitionRef, recognizing, sessionRef; cbn; exact T'.
    + destruct c as [[|] ? [|]]; destruct recognitionRef, recognizing; cbn;
        exact T'.
    + destruct sessionRef, agentRef, isConnectingRef; cbn; exact T'.
  - destruct o; exact T.
  - destruct o; destruct sessionRef; exact T.
  - destruct (table_withoutRef _ _ _ T) as (_ & T1 & _).
    destruct b; destruct silenceTimerRef as [old|]; cbn in *; try assumption.
    + apply (table_reset timers nextTimer (Some old) _ _ T).
    + apply (table_reset timers nextTimer None _ _ T).
Qed.

Lemma reachable_timersInOrder : forall env bind w,
  Page.reachable env bind w -> timersInOrder w.
Proof.
  intros env bind w R. induction R as [sr | w e w' R IH S].
  - destruct sr; repeat split; cbn; try discriminate; try (intros t []);
      apply NoDup_nil.
  - apply (step_timersInOrder env bind e w w' IH S).
Qed.

Lemma nodup_filter_ids : forall (p : Timer -> bool) ts,
  NoDup (map timer_id ts) -> NoDup (map timer_id (filter p ts)).
Proof.
  intros p ts. induction ts as [|t ts IH]; intros N; [constructor|].
  cbn in N |- *. inversion N as [|? ? Hn N']; subst.
  destruct (p t); [|apply IH, N'].
  cbn. constructor; [|apply IH, N'].
  intros H. apply Hn. apply in_map_iff in H. destruct H as (u & E & H).
  apply in_map_iff. exists u. split; [exact E|].
  apply filter_In in H. apply H.
Qed.

(** X1.  In every state the page reaches at most one countdown of the
    silence timer is pending, and it is the one [silenceTimerRef] holds. *)
Theorem one_pending_countdown :
  forall env bind w,
    Page.reachable env bind w ->
    (length (countdowns w) <= 1)%nat /\
    (forall t, In t (countdowns w) ->
               Wake.silenceTimerRef (wake w) = Some (timer_id t)).
Proof.
  intros env bind w R.
  destruct (reachable_timersInOrder env bind w R) as (_ & N & Rf & _).
  unfold countdowns. split.
  - pose proof (nodup_filter_ids isSilence _ N) as ND.
    destruct (filter isSilence (Host.timers (host w))) as [|a [|b l]] eqn:E;
      cbn; try lia.
    assert (Ha : In a (filter isSilence (Host.timers (host w))))
      by (rewrite E; left; reflexivity).
    assert (Hb : In b (filter isSilence (Host.timers (host w))))
      by (rewrite E; right; left; reflexivity).
    apply filter_In in Ha, Hb. destruct Ha as [Ha Sa], Hb as [Hb Sb].
    pose proof (Rf a Ha Sa) as Ea. pose proof (Rf b Hb Sb) as Eb.
    assert (I : timer_id a = timer_id b) by congruence.
    exfalso. cbn in ND. inversion ND as [|? ? Hn _]; subst.
    apply Hn. left. symmetry. exact I.
  - intros t H. apply filter_In in H. destruct H as [H S]. apply (Rf t H S).
Qed.

Lemma one_pending_countdown_witness :
  (length (countdowns exampleWoken) <= 1)%nat.
Proof.
  apply (one_pending_countdown None Page.reactBinding).
  apply (Page.reach_step None Page.reactBinding exampleListening
           (Page.SpeechResult ["Hey "%string; "guide"%string])).
  - apply (Page.reach_step None Page.reactBinding (Page.mounted true) Page.ClickMic).
    + apply Page.reach_mounted.
    + reflexivity.
  - reflexivity.
Defined.

Lemma exampleWoken_reachable : Page.reachable None Page.reactBinding exampleWoken.
Proof.
  apply (Page.reach_step None Page.reactBinding exampleListening
           (Page.SpeechResult ["Hey "%string; "guide"%string])).
  - apply (Page.reach_step None Page.reactBinding (Page.mounted true) Page.ClickMic).
    + apply Page.reach_mounted.
    + reflexivity.
  - reflexivity.
Defined.

Lemma link_status_coherent_witness :
  Agent.agentRef (agent exampleWoken) = true.
Proof.
  apply (link_status_coherent None Page.reactBinding exampleWoken
           exampleWoken_reachable).
Defined.

(* ------------------------------------------------------------------------- *)
(** ** Who starts the speech engine *)

Lemma step_firstRenderTimers : forall env e w w',
  firstRenderTimers w ->
  Page.step env Page.reactBinding e w = Some w' ->
  firstRenderTimers w'.
Proof.
  intros env e w w' F S. unfold firstRenderTimers in *.
  destruct e; cbn [Page.step] in S; unfold Browser.resume in S;
    split_step S; world w; cbn in F;
    assert (F' : forall old u k, In u (Browser.withoutTimer old timers) ->
                 closureOf (timer_task u) = Some k -> k = Page.firstRender)
      by (intros old u k H; apply in_withoutTimer in H; apply F, H).
  - unfold Page.handleToggleListening.
    destruct isListening, silenceTimerRef as [old|], recognitionRef,
             sessionRef, recognizing; cbn; try exact F; apply F'.
  - exact F.
  - unfold W.handleSpeechResult. destruct (W.wakeGuard _ _ _); [|exact F].
    destruct silenceTimerRef as [old|], recognitionRef; cbn;
      intros u k [<-|[<-|H]] E; cbn in E; try discriminate;
      try (injection E as <-; reflexivity);
      first [apply (F u k H E) | apply (F' old u k H E)].
  - unfold W.handleSpeechError. destruct (String.eqb code "no-speech"); exact F.
  - unfold seq, W.handleSpeechEnd.
    destruct (cap_isListening _ && negb (cap_conversationActive _)); cbn.
    + intros u k [<-|H] E; cbn in E.
      * injection E as <-. reflexivity.
      * apply (F u k H E).
    + exact F.
  - cbn. intros u k H E. apply in_map_iff in H. destruct H as (v & <- & H).
    apply (F v k H E).
  - unfold seq.
    destruct (timer_task _) as [c|c|]; cbn [Page.runTask].
    + destruct c as [[|] ? ?];
        destruct recognitionRef, recognizing, sessionRef; cbn; apply F'.
    + destruct c as [[|] ? [|]]; destruct recognitionRef, recognizing; cbn;
        apply F'.
    + destruct sessionRef, agentRef, isConnectingRef; cbn; apply F'.
  - destruct o; exact F.
  - destruct o; destruct sessionRef; exact F.
  - destruct b; destruct silenceTimerRef as [old|]; cbn; try exact F;
      try apply F'.
    + intros u k [<-|H] E; cbn in E; [injection E as <-; reflexivity|].
      apply (F' old u k H E).
    + intros u k [<-|H] E; cbn in E; [injection E as <-; reflexivity|].
      apply (F u k H E).
Qed.

Lemma reachable_firstRenderTimers : forall env w,
  Page.reachable env Page.reactBinding w -> firstRenderTimers w.
Proof.
  intros env w R. induction R as [sr | w e w' R IH S].
  - destruct sr; intros t c [].
  - apply (step_firstRenderTimers env e w w' IH S).
Qed.

Lemma step_engineReported : forall env e w w',
  firstRenderTimers w -> engineReported w ->
  Page.step env Page.reactBinding e w = Some w' ->
  engineReported w'.
Proof.
  intros env e w w' F G S. unfold engineReported, firstRenderTimers in *.
  destruct e; cbn [Page.step] in S; unfold Browser.resume in S.
  7:{ destruct (Browser.findTimer id w) as [t|] eqn:Ft; [|discriminate].
      destruct (timer_left t =? 0)%N; [|discriminate]. injection S as <-.
      assert (C : forall c, closureOf (timer_task t) = Some c -> c = Page.firstRender).
      { intros c. apply F. unfold Browser.findTimer in Ft.
        apply find_some in Ft. apply Ft. }
      clear F Ft. unfold seq. world w; cbn in G.
      destruct (timer_task t) as [c|c|]; cbn [Page.runTask].
      - rewrite (C c eq_refl).
        destruct recognitionRef, recognizing, sessionRef; cbn in *; exact G.
      - rewrite (C c eq_refl).
        destruct recognitionRef, recognizing; cbn in *; exact G.
      - destruct sessionRef, agentRef, isConnectingRef; cbn in *; exact G. }
  all: clear F; split_step S; world w; cbn in *.
  - unfold Page.handleToggleListening.
    destruct isListening, silenceTimerRef, recognitionRef, sessionRef, recognizing;
      cbn in *; intuition congruence.
  - intuition congruence.
  - unfold W.handleSpeechResult. destruct (W.wakeGuard _ _ _);
      destruct silenceTimerRef, recognitionRef; cbn in *; intuition congruence.
  - unfold W.handleSpeechError. destruct (String.eqb code "no-speech");
      cbn in *; intuition congruence.
  - discriminate.
  - intuition congruence.
  - destruct o; cbn in *; intuition congruence.
  - destruct o; destruct sessionRef; cbn in *; intuition congruence.
  - destruct b; destruct silenceTimerRef; cbn in *; intuition congruence.
Qed.

Lemma step_starts_engine_by_click : forall env e w w',
  firstRenderTimers w ->
  Page.step env Page.reactBinding e w = Some w' ->
  isClickMic e = false ->
  occurrences isRecognitionStart w' = occurrences isRecognitionStart w /\
  (Host.recognizing (host w) = false -> Host.recognizing (host w') = false).
Proof.
  intros env e w w' F S NC. rewrite !occurrences_log.
  unfold firstRenderTimers in *.
  destruct e; try discriminate NC; cbn [Page.step] in S;
    unfold Browser.resume in S.
  6:{ destruct (Browser.findTimer id w) as [t|] eqn:Ft; [|discriminate].
      destruct (timer_left t =? 0)%N; [|discriminate]. injection S as <-.
      assert (C : forall c, closureOf (timer_task t) = Some c -> c = Page.firstRender).
      { intros c. apply F. unfold Browser.findTimer in Ft.
        apply find_some in Ft. apply Ft. }
      unfold seq. world w.
      destruct (timer_task t) as [c|c|]; cbn [Page.runTask].
      - rewrite (C c eq_refl).
        destruct recognitionRef, recognizing, sessionRef; cbn; auto.
      - rewrite (C c eq_refl).
        destruct recognitionRef, recognizing; cbn; auto.
      - destruct sessionRef, agentRef, isConnectingRef; cbn; auto. }
  all: split_step S; world w.
  - cbn; auto.
  - unfold W.handleSpeechResult. destruct (W.wakeGuard _ _ _); [|cbn; auto].
    destruct silenceTimerRef, recognitionRef; cbn; auto.
  - unfold W.handleSpeechError. destruct (String.eqb code "no-speech"); cbn; auto.
  - unfold seq, W.handleSpeechEnd. cbn; auto.
  - cbn; auto.
  - destruct o; cbn; auto.
  - destruct o; destruct sessionRef; cbn; auto.
  - destruct b; destruct silenceTimerRef; cbn; auto.
Qed.

(** X3.  As the page binds its handlers, nothing but a click on the
    microphone calls [recognition.start()]: the closures of [onend] and of
    the silence timer captured [isListening = false], so neither the end of
    the speech stream nor the end of a conversation restarts the engine.
    The engine therefore never runs unless the page reports listening. *)
Theorem only_a_click_starts_the_engine :
  forall env w,
    Page.reachable env Page.reactBinding w ->
    (Host.recognizing (host w) = true -> Wake.isListening (wake w) = true) /\
    (forall e w',
       Page.step env Page.reactBinding e w = Some w' ->
       isClickMic e = false ->
       occurrences isRecognitionStart w' = occurrences isRecognitionStart w /\
       (Host.recognizing (host w) = false -> Host.recognizing (host w') = false)).
Proof.
  intros env w R.
  pose proof (reachable_firstRenderTimers env w R) as F.
  split.
  - clear F.
    assert (G : engineReported w).
    { induction R as [sr | w e w' R IH S].
      - destruct sr; discriminate.
      - apply (step_engineReported env e w w'
                 (reachable_firstRenderTimers env w R) IH S). }
    intros On. apply G, On.
  - intros e w' S NC. apply (step_starts_engine_by_click env e w w' F S NC).
Qed.

Lemma only_a_click_starts_the_engine_witness :
  exists w',
    Page.step None Page.reactBinding Page.SpeechEnd exampleWoken = Some w' /\
    occurrences isRecognitionStart w' =
    occurrences isRecognitionStart exampleWoken.
Proof.
  eexists. split; [reflexivity|].
  apply (proj2 (only_a_click_starts_the_engine None exampleWoken
                  exampleWoken_reachable)
               Page.SpeechEnd _ eq_refl eq_refl).
Defined.

(* ------------------------------------------------------------------------- *)
(** ** Starting, stopping and restarting the listening device *)

(** X4.  [startListening()] on a stopped engine starts it, reports
    listening and clears the error; a second call finds the engine started:
    [recognition.start()] throws, the error "Failed to start listening: ..."
    is set, and the engine keeps running and is still reported listening. *)
Theorem startListening_twice :
  forall w,
    W.hasRecognition w = true ->
    Host.recognizing (host w) = false ->
    let once := W.startListening w in
    let twice := W.startListening once in
    trace once = trace w ++ [RecognitionStart] /\
    Host.recognizing (host once) = true /\
    Wake.isListening (wake once) = true /\
    Wake.error (wake once) = None /\
    trace twice = trace once /\
    Host.recognizing (host twice) = true /\
    Wake.isListening (wake twice) = true /\
    Wake.error (wake twice) = Some startFailed.
Proof.
  intros w R Off; world w. cbn in R, Off. subst.
  unfold trace. cbn. repeat split; reflexivity.
Qed.

Lemma startListening_twice_witness :
  Wake.error (wake (W.startListening (W.startListening (Page.mounted true)))) =
  Some startFailed.
Proof.
  apply (startListening_twice (Page.mounted true) eq_refl eq_refl).
Defined.

(** X5.  [stopListening()] stops the engine, reports not listening, clears
    both flags and leaves the link and the error as they were.  In every
    state the page reaches it leaves no countdown pending, but every other
    pending callback stays: a [connect()] scheduled by a wake word is not
    cancelled. *)
Theorem stopListening_keeps_scheduled_connect :
  forall env bind w,
    Page.reachable env bind w ->
    let w' := W.stopListening w in
    Host.recognizing (host w') = false /\
    Wake.isListening (wake w') = false /\
    Wake.wakeWordDetected (wake w') = false /\
    Wake.conversationActive (wake w') = false /\
    Wake.error (wake w') = Wake.error (wake w) /\
    agent w' = agent w /\
    countdowns w' = [] /\
    (forall t, In t (Host.timers (host w)) -> isSilence t = false ->
               In t (Host.timers (host w'))).
Proof.
  intros env bind w R.
  pose proof (reachable_timersInOrder env bind w R) as T.
  unfold timersInOrder in T. cbv zeta.
  destruct (table_withoutRef _ _ _ T) as (_ & _ & Z).
  destruct T as (_ & _ & _ & _ & K).
  assert (Off : W.hasRecognition w = false -> Host.recognizing (host w) = false).
  { intros H. apply (reachable_engineless env bind w R H). }
  clear R. world w. cbn in Z, K, Off.
  assert (E : forall l, (forall t, In t l -> isSilence t = false) ->
                        filter isSilence l = []).
  { induction l as [|a l IH]; intros H; [reflexivity|].
    cbn. rewrite (H a (or_introl eq_refl)). apply IH.
    intros t Ht. apply H. right. exact Ht. }
  assert (Keep : forall old t, silenceTimerRef = Some old -> In t timers ->
                  isSilence t = false -> In t (Browser.withoutTimer old timers)).
  { intros old t -> H S. apply in_withoutTimer. split; [exact H|].
    intros I. specialize (K t H). rewrite I in K. specialize (K eq_refl).
    congruence. }
  destruct recognitionRef; [|rewrite (Off eq_refl)];
    destruct silenceTimerRef as [old|]; unfold countdowns; cbn;
    (repeat split; try reflexivity;
     [apply E; exact Z | intros t H S; first [exact H | apply (Keep old t eq_refl H S)]]).
Qed.

Lemma stopListening_keeps_scheduled_connect_witness :
  countdowns (W.stopListening exampleWoken) = [] /\
  In {| timer_id := 2; timer_left := 800; timer_task := SettleConnect |}
     (Host.timers (host (W.stopListening exampleWoken))).
Proof.
  destruct (stopListening_keeps_scheduled_connect
              None Page.reactBinding exampleWoken exampleWoken_reachable)
    as (_ & _ & _ & _ & _ & _ & C & K).
  split; [exact C|]. apply K; [left; reflexivity | reflexivity].
Defined.

(** X6.  When the speech stream ends, a handler whose closure captured
    "listening, no conversation" schedules one restart 100 ms later, and that
    restart starts the engine if it is stopped; a [recognition.start()] that
    throws is swallowed, and no error is ever set.  A handler whose closure
    captured "not listening" or "conversation active" does nothing. *)
Theorem speech_end_restart :
  forall c w,
    W.hasRecognition w = true ->
    let ended := W.handleSpeechEnd c w in
    let restarted := W.restartRecognition c ended in
    if cap_isListening c && negb (cap_conversationActive c)
    then
      Host.timers (host ended) =
        {| timer_id := Host.nextTimer (host w); timer_left := 100;
           timer_task := RestartRecognition c |} :: Host.timers (host w) /\
      wake ended = wake w /\
      Host.recognizing (host restarted) = true /\
      wake restarted = wake w /\
      trace restarted =
        trace ended ++
        (if Host.recognizing (host w) then [] else [RecognitionStart])
    else
      ended = w /\ restarted = w.
Proof.
  intros [cl cw cc] w R; world w. cbn in R. subst.
  unfold trace. destruct cl, cc, recognizing; cbn; rewrite ?app_nil_r;
    repeat split; reflexivity.
Qed.

Lemma speech_end_restart_witness :
  Host.recognizing
    (host (W.restartRecognition
             {| cap_isListening := true; cap_wakeWordDetected := false;
                cap_conversationActive := false |}
             (W.handleSpeechEnd
                {| cap_isListening := true; cap_wakeWordDetected := false;
                   cap_conversationActive := false |}
                (Page.mounted true)))) = true.
Proof.
  apply (speech_end_restart
           {| cap_isListening := true; cap_wakeWordDetected := false;
              cap_conversationActive := false |}
           (Page.mounted true) eq_refl).
Defined.

(* ------------------------------------------------------------------------- *)
(** ** The status line *)

Ltac cascade :=
  repeat match goal with
  | |- context [if ?b then _ else _] =>
      match b with
      | context [if _ then _ else _] => fail 1
      | _ => destruct b
      end
  end.

(** X7.  The colour of the status indicator and its text always come from
    the same case: two states show the same colour exactly when they show
    the same text or both show an error. *)
Theorem status_colour_follows_text :
  forall env w1 w2,
    View.getStatusColor w1 = View.getStatusColor w2 <->
    (View.getStatusText env w1 = View.getStatusText env w2 \/
     (truthy (Page.error w1) = true /\ truthy (Page.error w2) = true)).
Proof.
  intros env w1 w2. unfold View.getStatusColor, View.getStatusText.
  generalize (textOf (Page.error w1)) (textOf (Page.error w2)).
  intros e1 e2.
  set (a1 := truthy (Page.error w1)). set (a2 := truthy (Page.error w2)).
  set (c1 := Wake.conversationActive (wake w1) && Agent.isConnected (agent w1)).
  set (c2 := Wake.conversationActive (wake w2) && Agent.isConnected (agent w2)).
  clearbody a1 a2 c1 c2.
  split.
  - intros H; cascade; cbn in H |- *;
      first [discriminate H | left; reflexivity | right; split; reflexivity].
  - intros [H|[H1 H2]].
    + cascade; cbn in H |- *; first [reflexivity | discriminate H].
    + subst a1 a2. reflexivity.
Qed.

(* ------------------------------------------------------------------------- *)
(** ** Unmounting *)





(* ------------------------------------------------------------------------- *)
(** ** The session map of the proxy *)

Section MapFacts.
Context {V : Type}.
Implicit Types (m : JsMap.Map (V := V)) (k : string) (v : V).

Lemma isKey_true : forall k (e : string * V), JsMap.isKey k e = true <-> fst e = k.
Proof. intros k e. unfold JsMap.isKey. apply String.eqb_eq. Qed.

Lemma isKey_false : forall k (e : string * V), JsMap.isKey k e = false <-> fst e <> k.
Proof. intros k e. unfold JsMap.isKey. apply String.eqb_neq. Qed.

Lemma get_in : forall k m v, JsMap.get k m = Some v -> In (k, v) m.
Proof.
  intros k m v. unfold JsMap.get.
  destruct (find (JsMap.isKey k) m) as [[k' v']|] eqn:F; [|discriminate].
  intros H. injection H as <-. apply find_some in F. destruct F as [I K].
  apply isKey_true in K. cbn in K. subst k'. exact I.
Qed.

Lemma get_none : forall k m, JsMap.get k m = None <-> ~ In k (JsMap.keys m).
Proof.
  intros k m. unfold JsMap.get, JsMap.keys. induction m as [|e m IH]; cbn.
  - split; [intros _ []|reflexivity].
  - destruct (JsMap.isKey k e) eqn:K.
    + apply isKey_true in K. split; [discriminate|]. intros H. destruct H.
      left. exact K.
    + apply isKey_false in K. rewrite IH. split.
      * intros H [E|I]; [exact (K E)|exact (H I)].
      * intros H I. apply H. right. exact I.
Qed.


Lemma in_set : forall k v m e,
  In e (JsMap.set k v m) -> e = (k, v) \/ In e m.
Proof.
  intros k v m e. induction m as [|a m IH]; cbn.
  - intros [<-|[]]. left. reflexivity.
  - destruct (JsMap.isKey k a) eqn:K; cbn.
    + intros [<-|I]; [left; reflexivity|]. right. right. exact I.
    + intros [<-|I]; [right; left; reflexivity|].
      destruct (IH I) as [E|J]; [left; exact E|right; right; exact J].
Qed.

Lemma set_absent : forall k v m,
  ~ In k (JsMap.keys m) -> JsMap.set k v m = m ++ [(k, v)].
Proof.
  intros k v m. unfold JsMap.keys. induction m as [|a m IH]; cbn; intros H.
  - reflexivity.
  - destruct (JsMap.isKey k a) eqn:K.
    + apply isKey_true in K. destruct H. left. exact K.
    + f_equal. apply IH. intros I. apply H. right. exact I.
Qed.

Lemma keys_set_present : forall k v m,
  In k (JsMap.keys m) -> JsMap.keys (JsMap.set k v m) = JsMap.keys m.
Proof.
  intros k v m. unfold JsMap.keys. induction m as [|a m IH]; cbn; intros H.
  - destruct H.
  - destruct (JsMap.isKey k a) eqn:K; cbn.
    + apply isKey_true in K. rewrite K. reflexivity.
    + apply isKey_false in K. f_equal. apply IH.
      destruct H as [E|I]; [destruct (K E)|exact I].
Qed.

Lemma in_delete : forall k m e,
  In e (JsMap.delete k m) <-> In e m /\ fst e <> k.
Proof.
  intros k m e. unfold JsMap.delete. rewrite filter_In.
  rewrite negb_true_iff, isKey_false. reflexivity.
Qed.

Lemma nodup_keys_filter : forall (g : string * V -> bool) m,
  NoDup (JsMap.keys m) -> NoDup (JsMap.keys (filter g m)).
Proof.
  intros g m. unfold JsMap.keys. induction m as [|a m IH]; cbn; intros N.
  - constructor.
  - inversion N as [|? ? X N']; subst. destruct (g a); cbn.
    + constructor; [|apply IH; exact N'].
      intros I. apply X. apply in_map_iff in I. destruct I as (e & E & I).
      apply filter_In in I. apply in_map_iff. exists e. tauto.
    + apply IH. exact N'.
Qed.

Lemma get_app_absent : forall k pre m,
  ~ In k (JsMap.keys pre) -> JsMap.get k (pre ++ m) = JsMap.get k m.
Proof.
  intros k pre m. unfold JsMap.get, JsMap.keys.
  induction pre as [|a pre IH]; cbn; intros H; [reflexivity|].
  destruct (JsMap.isKey k a) eqn:K.
  - apply isKey_true in K. destruct H. left. exact K.
  - apply IH. intros I. apply H. right. exact I.
Qed.

Lemma get_head : forall k v m, JsMap.get k ((k, v) :: m) = Some v.
Proof.
  intros k v m. unfold JsMap.get. cbn. unfold JsMap.isKey. cbn.
  rewrite String.eqb_refl. reflexivity.
Qed.

Lemma delete_absent : forall k m,
  ~ In k (JsMap.keys m) -> JsMap.delete k m = m.
Proof.
  intros k m. unfold JsMap.delete, JsMap.keys.
  induction m as [|a m IH]; cbn; intros H; [reflexivity|].
  destruct (JsMap.isKey k a) eqn:K; cbn.
  - apply isKey_true in K. destruct H. left. exact K.
  - f_equal. apply IH. intros I. apply H. right. exact I.
Qed.

Lemma delete_middle : forall k v pre m,
  NoDup (JsMap.keys (pre ++ (k, v) :: m)) ->
  JsMap.delete k (pre ++ (k, v) :: m) = pre ++ m.
Proof.
  intros k v pre m N. unfold JsMap.keys in N. rewrite map_app in N. cbn in N.
  apply NoDup_remove in N. destruct N as [N X]. rewrite <- map_app in N.
  unfold JsMap.delete. rewrite filter_app. cbn. unfold JsMap.isKey at 2. cbn.
  rewrite String.eqb_refl. cbn.
  change (JsMap.delete k pre ++ JsMap.delete k m = pre ++ m).
  rewrite !delete_absent; [reflexivity| |];
    intros I; apply X; unfold JsMap.keys in I; apply in_or_app; tauto.
Qed.

End MapFacts.

Lemma closeSession_at : forall k v q,
  JsMap.get k (P.sessions q) = Some v ->
  P.closeSession k q =
  {| P.sessions := JsMap.delete k (P.sessions q);
     P.nextSocket := P.nextSocket q;
     P.opening := P.opening q;
     P.log := map P.Close (P.socketsOf [(k, v)]) ++ P.log q |}.
Proof.
  intros k v q G. unfold P.closeSession. rewrite G.
  destruct v as [vid [ws|] vc va]; reflexivity.
Qed.

Lemma closing_loop : forall sel l pre q,
  P.sessions q = pre ++ l ->
  NoDup (JsMap.keys (pre ++ l)) ->
  let r := fold_left (fun q e => P.closeWhen sel (fst e) (snd e) q) l q in
  P.sessions r = pre ++ filter (fun e => negb (sel e)) l /\
  P.log r = rev (map P.Close (P.socketsOf (filter sel l))) ++ P.log q /\
  P.nextSocket r = P.nextSocket q /\
  P.opening r = P.opening q.
Proof.
  intros sel l. induction l as [|[k v] l IH]; intros pre q S N; cbn.
  - rewrite S. repeat split; reflexivity.
  - assert (E : P.closeWhen sel k v q =
                if sel (k, v) then P.closeSession k q else q) by reflexivity.
    rewrite E. clear E. destruct (sel (k, v)) eqn:Sel; cbn [negb].
    + assert (X : ~ In k (JsMap.keys pre)).
      { unfold JsMap.keys in *. rewrite map_app in N. cbn in N.
        apply NoDup_remove_2 in N. intros I. apply N. apply in_or_app. tauto. }
      assert (G : JsMap.get k (P.sessions q) = Some v).
      { rewrite S, get_app_absent by exact X. apply get_head. }
      assert (N' : NoDup (JsMap.keys (pre ++ l))).
      { unfold JsMap.keys in *. rewrite map_app in *. cbn in N.
        apply NoDup_remove_1 in N. exact N. }
      rewrite (closeSession_at k v q G).
      match goal with |- context [fold_left _ l ?q'] =>
        assert (S' : P.sessions q' = pre ++ l)
          by (cbn [P.sessions]; rewrite S; apply delete_middle; exact N);
        destruct (IH pre q' S' N') as (A & B & C & D) end.
      cbn [P.log P.nextSocket P.opening] in B, C, D. rewrite A, B, C, D.
      repeat split; try reflexivity.
      unfold P.socketsOf. cbn [flat_map]. fold (P.socketsOf (filter sel l)).
      rewrite app_nil_r, map_app, rev_app_distr, <- app_assoc.
      f_equal. cbn [snd]. destruct (P.websocket v); reflexivity.
    + assert (S' : P.sessions q = (pre ++ [(k, v)]) ++ l).
      { rewrite S, <- app_assoc. reflexivity. }
      assert (N' : NoDup (JsMap.keys ((pre ++ [(k, v)]) ++ l))).
      { rewrite <- app_assoc. exact N. }
      destruct (IH (pre ++ [(k, v)]) q S' N') as (A & B & C & D).
      rewrite A, B, C, D, <- app_assoc. repeat split; reflexivity.
Qed.


Lemma get_set_same : forall (V : Type) k (v : V) (m : JsMap.Map (V := V)),
  JsMap.get k (JsMap.set k v m) = Some v.
Proof.
  intros V k v m. unfold JsMap.get. induction m as [|a m IH]; cbn.
  - unfold JsMap.isKey. cbn. rewrite String.eqb_refl. reflexivity.
  - destruct (JsMap.isKey k a) eqn:K; cbn.
    + unfold JsMap.isKey. cbn. rewrite String.eqb_refl. reflexivity.
    + rewrite K. exact IH.
Qed.

Lemma filter_all : forall (A : Type) (l : list A), filter (fun _ => true) l = l.
Proof. intros A l. induction l as [|a l IH]; cbn; congruence. Qed.

Lemma filter_none : forall (A : Type) (l : list A), filter (fun _ => false) l = [].
Proof. intros A l. induction l as [|a l IH]; cbn; congruence. Qed.


(** X10.  [dispose] empties the session map and closes the websocket of
    every session, each once, in map order. *)
Theorem dispose_closes_every_session :
  forall p,
    NoDup (JsMap.keys (P.sessions p)) ->
    P.sessions (P.dispose p) = [] /\
    P.done (P.dispose p) =
      P.done p ++ map P.Close (P.socketsOf (P.sessions p)).
Proof.
  intros p N.
  destruct (closing_loop (fun _ => true) (P.sessions p) [] p eq_refl N)
    as (A & B & _).
  change (fold_left _ _ _) with (P.dispose p) in A, B. cbn in A.
  rewrite filter_none in A. rewrite filter_all in B.
  split; [exact A|].
  unfold P.done. rewrite B, rev_app_distr, rev_involutive. reflexivity.
Qed.

Lemma filed_update : forall m n k s f,
  P.filed m n ->
  JsMap.get k m = Some s ->
  P.id (f s) = P.id s ->
  P.websocket (f s) = P.websocket s ->
  P.filed (JsMap.set k (f s) m) n.
Proof.
  intros m n k s f (N & F & U) G Hid Hws.
  pose proof (get_in k m s G) as I.
  assert (K : In k (JsMap.keys m)) by (apply (in_map fst) in I; exact I).
  assert (New : forall e, In e (JsMap.set k (f s) m) ->
                  exists e', In e' m /\ fst e' = fst e /\
                             P.id (snd e') = P.id (snd e) /\
                             P.websocket (snd e') = P.websocket (snd e)).
  { intros e J. destruct (in_set _ _ _ _ J) as [->|J'].
    - exists (k, s). cbn. auto.
    - exists e. auto. }
  split; [rewrite keys_set_present by exact K; exact N|]. split.
  - intros e J. destruct (New e J) as (e' & J' & Ek & Ei & Ew).
    rewrite <- Ek, <- Ei, <- Ew. apply F. exact J'.
  - intros e1 e2 J1 J2 W.
    destruct (New e1 J1) as (a & Ja & Ek1 & _ & Ew1).
    destruct (New e2 J2) as (b & Jb & Ek2 & _ & Ew2).
    rewrite <- Ek1, <- Ek2. apply U; [exact Ja|exact Jb|congruence].
Qed.

Lemma filed_sub : forall m m' n,
  P.filed m n ->
  (forall e, In e m' -> In e m) ->
  NoDup (JsMap.keys m') ->
  P.filed m' n.
Proof.
  intros m m' n (N & F & U) Sub N'. split; [exact N'|]. split.
  - intros e J. apply F. apply Sub. exact J.
  - intros e1 e2 J1 J2. apply U; apply Sub; assumption.
Qed.

Lemma filed_filter : forall g m n,
  P.filed m n -> P.filed (filter g m) n.
Proof.
  intros g m n F. apply (filed_sub m); [exact F| |].
  - intros e J. apply filter_In in J. tauto.
  - apply nodup_keys_filter. destruct F as [N _]. exact N.
Qed.

Lemma filed_create : forall m n k c t,
  P.filed m n ->
  JsMap.has k m = false ->
  P.filed (JsMap.set k {| P.id := k; P.websocket := Some n;
                          P.isConnected := c; P.lastActivity := t |} m) (S n).
Proof.
  intros m n k c t (N & F & U) H.
  assert (X : ~ In k (JsMap.keys m)).
  { apply get_none. unfold JsMap.has in H.
    destruct (JsMap.get k m); [discriminate|reflexivity]. }
  rewrite set_absent by exact X. split; [|split].
  - unfold JsMap.keys in *. rewrite map_app. cbn.
    apply NoDup_app; [exact N|repeat constructor; intros []|].
    intros a I [<-|[]]. exact (X I).
  - intros e J. apply in_app_or in J. destruct J as [J|[<-|[]]].
    + destruct (F e J) as (Hid & ws & W & L). split; [exact Hid|].
      exists ws. split; [exact W|lia].
    + cbn. split; [reflexivity|]. exists n. split; [reflexivity|lia].
  - assert (Old : forall e, In e m -> P.websocket (snd e) <> Some n).
    { intros e J E. destruct (F e J) as (_ & ws & W & L).
      rewrite W in E. injection E as ->. lia. }
    intros e1 e2 J1 J2 W. apply in_app_or in J1. apply in_app_or in J2.
    destruct J1 as [J1|[<-|[]]], J2 as [J2|[<-|[]]]; cbn in *.
    + apply U; assumption.
    + destruct (Old e1 J1 W).
    + destruct (Old e2 J2 (eq_sym W)).
    + reflexivity.
Qed.

Lemma withSession_filed : forall k f p,
  (forall s, P.id (f s) = P.id s) ->
  (forall s, P.websocket (f s) = P.websocket s) ->
  P.filed (P.sessions p) (P.nextSocket p) ->
  P.filed (P.sessions (P.withSession k f p))
          (P.nextSocket (P.withSession k f p)).
Proof.
  intros k f p Hid Hws F. unfold P.withSession.
  destruct (JsMap.get k (P.sessions p)) as [s|] eqn:G; [|exact F].
  cbn. apply filed_update; auto.
Qed.

Lemma closeSession_filed : forall k p,
  P.filed (P.sessions p) (P.nextSocket p) ->
  P.filed (P.sessions (P.closeSession k p))
          (P.nextSocket (P.closeSession k p)).
Proof.
  intros k p F. unfold P.closeSession.
  destruct (JsMap.get k (P.sessions p)) as [[i [ws|] c a]|]; cbn;
    apply filed_filter; exact F.
Qed.

Lemma apply_filed : forall o p,
  P.filed (P.sessions p) (P.nextSocket p) ->
  P.filed (P.sessions (P.apply o p)) (P.nextSocket (P.apply o p)).
Proof.
  intros o p F. destruct o; cbn [P.apply].
  - unfold P.createSession.
    destruct (JsMap.has sessionId (P.sessions p)) eqn:H; cbn; [exact F|].
    apply filed_create; assumption.
  - unfold P.onOpen.
    match goal with |- context [P.withSession ?k ?f p] =>
      pose proof (withSession_filed k f p (fun _ => eq_refl) (fun _ => eq_refl) F) as W;
      set (p1 := P.withSession k f p) in * end.
    destruct (P.waits ws sessionId _); [|exact W].
    unfold P.initializeOpenAISession. cbn.
    destruct (JsMap.get sessionId (P.sessions p1)) as [[i [w|] c a]|]; exact W.
  - unfold P.onError. destruct (P.waits ws sessionId _); [|exact F].
    cbn. apply filed_filter. exact F.
  - unfold P.onClose. cbn.
    apply (withSession_filed sessionId (P.setIsConnected false) p
             (fun _ => eq_refl) (fun _ => eq_refl) F).
  - unfold P.handleOpenAIMessage.
    pose proof (fun q => withSession_filed sessionId (P.setLastActivity now) q
                           (fun _ => eq_refl) (fun _ => eq_refl)) as W.
    destruct data as [| |delta| |[message|]|]; try exact F;
      try (apply W; exact F).
    destruct (truthy delta); apply W; exact F.
  - unfold P.sendAudioData.
    destruct (JsMap.get sessionId (P.sessions p)) as [[i [w|] [|] a]|]; cbn;
      try exact F.
    match goal with |- context [P.withSession ?k ?f ?q] =>
      apply (withSession_filed k f q (fun _ => eq_refl) (fun _ => eq_refl)) end.
    exact F.
  - unfold P.sendTextQuery.
    destruct (JsMap.get sessionId (P.sessions p)) as [[i [w|] [|] a]|]; cbn;
      try exact F.
    match goal with |- context [P.withSession ?k ?f ?q] =>
      apply (withSession_filed k f q (fun _ => eq_refl) (fun _ => eq_refl)) end.
    exact F.
  - apply closeSession_filed. exact F.
  - destruct F as [N F'].
    destruct (closing_loop (P.stale (P.cutoffOf maxInactiveMinutes now))
                (P.sessions p) [] p eq_refl N) as (A & _ & C & _).
    change (fold_left _ _ _)
      with (P.cleanupInactiveSessions maxInactiveMinutes now p) in A, C.
    rewrite A, C. cbn. apply filed_filter. split; assumption.
  - destruct F as [N F'].
    destruct (closing_loop (fun _ => true) (P.sessions p) [] p eq_refl N)
      as (A & _ & C & _).
    change (fold_left _ _ _) with (P.dispose p) in A, C.
    rewrite A, C. cbn. apply filed_filter. split; assumption.
Qed.

Lemma run_filed : forall os p,
  P.filed (P.sessions p) (P.nextSocket p) ->
  P.filed (P.sessions (P.run os p)) (P.nextSocket (P.run os p)).
Proof.
  intros os. induction os as [|o os IH]; intros p F; [exact F|].
  cbn. apply IH. apply apply_filed. exact F.
Qed.

Lemma initial_filed : P.filed (P.sessions P.initial) (P.nextSocket P.initial).
Proof.
  split; [constructor|]. split; [intros e []|intros e1 e2 []].
Qed.

(** X11.  Whatever happens to a proxy, its session map has one entry a
    key, every session is filed under its own id and holds a websocket
    that the proxy made, and no two sessions hold the same websocket. *)
Theorem sessions_filed_under_their_id :
  forall os,
    let p := P.run os P.initial in
    NoDup (JsMap.keys (P.sessions p)) /\
    (forall k s, P.getSession k p = Some s ->
       P.id s = k /\
       exists ws, P.websocket s = Some ws /\ (ws < P.nextSocket p)%nat) /\
    (forall k1 k2 s1 s2,
       P.getSession k1 p = Some s1 -> P.getSession k2 p = Some s2 ->
       P.websocket s1 = P.websocket s2 -> k1 = k2).
Proof.
  intros os p. destruct (run_filed os P.initial initial_filed) as (N & F & U).
  fold p in N, F, U. split; [exact N|]. split.
  - intros k s G. apply get_in in G. exact (F (k, s) G).
  - intros k1 k2 s1 s2 G1 G2 W. apply get_in in G1, G2.
    exact (U (k1, s1) (k2, s2) G1 G2 W).
Qed.

(** X12.  On a proxy in any state it can reach, [sendTextQuery] returns
    exactly when a session is filed under the id and is connected; it then
    sends the text and the request for a response, in this order, to the
    websocket of that session and refreshes its last activity.  Otherwise
    it throws and changes nothing. *)
Theorem sendTextQuery_needs_connected_session :
  forall os sessionId text now,
    let p := P.run os P.initial in
    match P.sendTextQuery sessionId text now p with
    | Returned q =>
        exists s ws,
          P.getSession sessionId p = Some s /\
          P.isConnected s = true /\
          P.websocket s = Some ws /\
          P.done q =
            P.done p ++ [P.Send ws (P.ConversationItemCreate text);
                         P.Send ws P.ResponseCreate] /\
          P.getSession sessionId q = Some (P.setLastActivity now s) /\
          JsMap.keys (P.sessions q) = JsMap.keys (P.sessions p)
    | Threw message =>
        message = P.notConnected sessionId /\
        (forall s, P.getSession sessionId p = Some s ->
                   P.isConnected s = false)
    end.
Proof.
  intros os k text now p.
  destruct (run_filed os P.initial initial_filed) as (N & F & U).
  fold p in N, F, U. unfold P.sendTextQuery, P.getSession.
  destruct (JsMap.get k (P.sessions p)) as [s|] eqn:G.
  - pose proof (get_in _ _ _ G) as I.
    destruct (F _ I) as (_ & ws & W & _). cbn in W.
    destruct s as [i w c a]. cbn in W. subst w. destruct c.
    + exists {| P.id := i; P.websocket := Some ws; P.isConnected := true;
                P.lastActivity := a |}, ws.
      unfold P.withSession. cbn. rewrite G. cbn.
      repeat split; try reflexivity.
      * unfold P.done. rewrite <- app_assoc. reflexivity.
      * apply get_set_same.
      * apply keys_set_present. apply (in_map fst) in I. exact I.
    + split; [reflexivity|]. intros s E. injection E as <-. reflexivity.
  - split; [reflexivity|]. intros s E. discriminate E.
Qed.

Lemma exampleProxy_keys : NoDup (JsMap.keys (P.sessions exampleProxy)).
Proof.
  repeat constructor; simpl; intuition discriminate.
Defined.


Lemma dispose_closes_every_session_witness :
  P.sessions (P.dispose exampleProxy) = [] /\
  P.done (P.dispose exampleProxy) =
    P.done exampleProxy ++ [P.Close 0; P.Close 1; P.Close 2].
Proof.
  destruct (dispose_closes_every_session exampleProxy exampleProxy_keys)
    as (A & B).
  rewrite A, B. split; reflexivity.
Defined.

(* ------------------------------------------------------------------------- *)
(** ** The API routes *)

(** X13.  The token route calls upstream only for a POST with a configured
    key, and answers 200 exactly when upstream replied ok.  The page then
    creates a session; for every other answer the page shows the same
    error, whatever reason the route gave, releases the lock and holds no
    new session. *)
Theorem token_route_and_connect :
  forall method apiKey upstream w,
    let calls := fst (TokenRoute.handler method apiKey upstream) in
    let r := snd (TokenRoute.handler method apiKey upstream) in
    let w' := A.connectAfterToken (TokenRoute.outcome r) w in
    (calls = if (method =? "POST")%string && truthy apiKey
             then [("Bearer " ++ textOf apiKey)%string] else []) /\
    (status r = 200 <->
       (method = "POST"%string /\ truthy apiKey = true /\
        exists value, upstream = TokenRoute.UpstreamOk value)) /\
    (status r = 200 ->
       Agent.sessionRef (agent w') = Some (Host.nextSession (host w)) /\
       Agent.error (agent w') = Agent.error (agent w)) /\
    (status r <> 200 ->
       (status r = 405 \/ status r = 500) /\
       Agent.error (agent w') = Some "Failed to get authentication token"%string /\
       Agent.isConnectingRef (agent w') = false /\
       Agent.isConnecting (agent w') = false /\
       Agent.sessionRef (agent w') = Agent.sessionRef (agent w)).
Proof.
  intros method apiKey upstream w. unfold TokenRoute.handler.
  destruct (method =? "POST")%string eqn:M; cbn -[String.eqb].
  - apply String.eqb_eq in M. destruct (truthy apiKey) eqn:K; cbn.
    + destruct upstream as [value| |]; cbn; world w; cbn.
      * split; [reflexivity|]. split; [split; eauto|].
        split; [auto|]. intros H. destruct H. reflexivity.
      * split; [reflexivity|].
        split; [split; [discriminate|intros (_ & _ & v & E); discriminate E]|].
        split; [discriminate|]. intros _. auto 6.
      * split; [reflexivity|].
        split; [split; [discriminate|intros (_ & _ & v & E); discriminate E]|].
        split; [discriminate|]. intros _. auto 6.
    + world w; cbn. split; [reflexivity|].
      split; [split; [discriminate|intros (_ & E & _); discriminate E]|].
      split; [discriminate|]. intros _. auto 6.
  - apply String.eqb_neq in M. world w; cbn. split; [reflexivity|].
    split; [split; [discriminate|intros (E & _); destruct (M E)]|].
    split; [discriminate|]. intros _. auto 6.
Qed.

Lemma cleanup_initial : forall m now,
  RealtimeProxy.cleanupInactiveSessions m now RealtimeProxy.initial =
  RealtimeProxy.initial.
Proof. reflexivity. Qed.

Lemma session_route_step : forall e st,
  st = None \/ st = Some RealtimeProxy.initial ->
  SessionRoute.step e st = None \/
  SessionRoute.step e st = Some RealtimeProxy.initial.
Proof.
  intros [apiKey now [method q sid qs]|now] st [->| ->]; cbn -[String.eqb].
  - unfold SessionRoute.handler, SessionRoute.initializeRealtimeProxy.
    destruct (truthy apiKey); [|left; reflexivity]. cbn -[String.eqb].
    destruct (method =? "POST")%string.
    { destruct (truthy q); cbn; [|right; reflexivity].
      destruct (truthy sid); right; reflexivity. }
    destruct (method =? "GET")%string.
    { destruct (truthyString qs); right; reflexivity. }
    destruct (method =? "DELETE")%string.
    { destruct (truthyString qs); right; reflexivity. }
    right; reflexivity.
  - unfold SessionRoute.handler, SessionRoute.initializeRealtimeProxy.
    cbn -[String.eqb].
    destruct (method =? "POST")%string.
    { destruct (truthy q); cbn; [|right; reflexivity].
      destruct (truthy sid); right; reflexivity. }
    destruct (method =? "GET")%string.
    { destruct (truthyString qs); right; reflexivity. }
    destruct (method =? "DELETE")%string.
    { destruct (truthyString qs); right; reflexivity. }
    right; reflexivity.
  - left; reflexivity.
  - right; reflexivity.
Qed.

Lemma session_route_run : forall es st,
  st = None \/ st = Some RealtimeProxy.initial ->
  SessionRoute.run es st = None \/
  SessionRoute.run es st = Some RealtimeProxy.initial.
Proof.
  intros es. induction es as [|e es IH]; intros st H; [exact H|].
  cbn. apply IH. apply session_route_step. exact H.
Qed.

(** X14.  The proxy of the session route never holds a session: nothing in
    the route creates one.  So, whatever requests and timer ticks came
    before, a query for a session and a lookup of a session are answered
    404 Session not found, the list of sessions is empty, nothing is ever
    sent to a websocket, and without a proxy and without the key every
    request, whatever its method, is answered 500. *)
Theorem session_route_holds_no_session :
  forall es apiKey now req,
    let st := SessionRoute.run es None in
    let r := snd (SessionRoute.handler apiKey now req st) in
    (st = None \/ st = Some RealtimeProxy.initial) /\
    (st = None -> truthy apiKey = false ->
       r = SessionRoute.internalError keyRequired) /\
    (st <> None \/ truthy apiKey = true ->
       (SessionRoute.method req = "POST"%string ->
        truthy (SessionRoute.bodyQuery req) = true ->
        truthy (SessionRoute.bodySessionId req) = true ->
        r = {| status := 404; body := errorBody "Session not found" |}) /\
       (SessionRoute.method req = "GET"%string ->
        r = match truthyString (SessionRoute.querySessionId req) with
            | Some _ => {| status := 404;
                           body := errorBody "Session not found" |}
            | None => {| status := 200;
                         body := JObject [("sessions", JArray [])] |}
            end)).
Proof.
  intros es apiKey now [method q sid qs] st r.
  pose proof (session_route_run es None (or_introl eq_refl)) as H.
  fold st in H. split; [exact H|]. subst r.
  unfold SessionRoute.handler, SessionRoute.initializeRealtimeProxy.
  cbn -[String.eqb]. split.
  - intros -> ->. reflexivity.
  - intros K.
    assert (E : match st with
                | Some p => Returned p
                | None => if truthy apiKey then Returned RealtimeProxy.initial
                          else Threw keyRequired
                end = Returned RealtimeProxy.initial).
    { destruct H as [-> | ->]; [|reflexivity].
      destruct K as [K|K]; [destruct K; reflexivity|rewrite K; reflexivity]. }
    rewrite E. split.
    + intros -> Q S. cbn. rewrite Q, S. reflexivity.
    + intros ->. cbn. destruct (truthyString qs); reflexivity.
Qed.

Lemma session_route_holds_no_session_witness :
  snd (SessionRoute.handler (Some "sk-1"%string) 0%Z
         {| SessionRoute.method := "POST";
            SessionRoute.bodyQuery := Some "Where is the museum?"%string;
            SessionRoute.bodySessionId := Some "s1"%string;
            SessionRoute.querySessionId := Absent |}
         (SessionRoute.run
            [SessionRoute.Serve (Some "sk-1"%string) 0%Z
               {| SessionRoute.method := "DELETE";
                  SessionRoute.bodyQuery := None;
                  SessionRoute.bodySessionId := None;
                  SessionRoute.querySessionId := Single "s1" |}]
            None)) =
  {| status := 404; body := errorBody "Session not found" |}.
Proof.
  destruct (session_route_holds_no_session
              [SessionRoute.Serve (Some "sk-1"%string) 0%Z
                 {| SessionRoute.method := "DELETE";
                    SessionRoute.bodyQuery := None;
                    SessionRoute.bodySessionId := None;
                    SessionRoute.querySessionId := Single "s1" |}]
              (Some "sk-1"%string) 0%Z
              {| SessionRoute.method := "POST";
                 SessionRoute.bodyQuery := Some "Where is the museum?"%string;
                 SessionRoute.bodySessionId := Some "s1"%string;
                 SessionRoute.querySessionId := Absent |})
    as (_ & _ & K).
  destruct (K (or_intror eq_refl)) as (P & _).
  apply P; reflexivity.
Defined.

Lemma has_set_same : forall k (v : P.RealtimeSession) m,
  JsMap.has k (JsMap.set k v m) = true.
Proof. intros. unfold JsMap.has. rewrite get_set_same. reflexivity. Qed.

Lemma get_delete_same : forall k (m : JsMap.Map (V := P.RealtimeSession)),
  JsMap.get k (JsMap.delete k m) = None.
Proof.
  intros k m. apply get_none. unfold JsMap.keys. intros I.
  apply in_map_iff in I. destruct I as (e & E & I).
  apply in_delete in I. tauto.
Qed.

Lemma waits_after_create : forall l ws k,
  existsb (fun c : nat * string => (fst c =? ws)%nat && (snd c =? k)%string)
          (l ++ [(ws, k)]) = true.
Proof.
  intros l ws k. rewrite existsb_app. cbn.
  rewrite Nat.eqb_refl, String.eqb_refl. apply orb_true_r.
Qed.

Lemma has_keys : forall k (m : JsMap.Map (V := P.RealtimeSession)),
  JsMap.has k m = true <-> In k (JsMap.keys m).
Proof.
  intros k m. unfold JsMap.has. pose proof (get_none k m) as N.
  destruct (JsMap.get k m) as [s|].
  - split; [intros _|reflexivity].
    destruct (in_dec string_dec k (JsMap.keys m)) as [I|I]; [exact I|].
    apply N in I. discriminate I.
  - split; [discriminate|]. intros I. destruct N as [N _].
    destruct (N eq_refl I).
Qed.

Lemma withSession_keys : forall k f p,
  JsMap.keys (P.sessions (P.withSession k f p)) = JsMap.keys (P.sessions p).
Proof.
  intros k f p. unfold P.withSession.
  destruct (JsMap.get k (P.sessions p)) as [s|] eqn:G; [|reflexivity].
  cbn. apply keys_set_present. apply get_in in G.
  apply (in_map fst) in G. exact G.
Qed.

Lemma onOpen_keys : forall ws k now p,
  JsMap.keys (P.sessions (P.onOpen ws k now p)) = JsMap.keys (P.sessions p).
Proof.
  intros ws k now p. unfold P.onOpen.
  match goal with |- context [P.withSession ?a ?f p] =>
    pose proof (withSession_keys a f p) as W;
    set (p1 := P.withSession a f p) in * end.
  destruct (P.waits ws k _); [|exact W].
  unfold P.initializeOpenAISession. cbn.
  destruct (JsMap.get k (P.sessions p1)) as [[i [w|] c a]|]; exact W.
Qed.

Lemma create_route_existing : forall apiKey now req q,
  CreateRoute.method req = "POST"%string ->
  truthy (CreateRoute.bodySessionId req) = true ->
  JsMap.has (textOf (CreateRoute.bodySessionId req)) (P.sessions q) = true ->
  CreateRoute.handler apiKey now req (Some q) =
    (Some q, CreateRoute.Respond
               (CreateRoute.creationFailed
                  (P.alreadyExists (textOf (CreateRoute.bodySessionId req))))).
Proof.
  intros apiKey now [method sid] q M T H. cbn in M, T, H. subst method.
  unfold CreateRoute.handler, P.createSession. cbn. rewrite T, H. reflexivity.
Qed.

Lemma create_route_free : forall apiKey now req q,
  CreateRoute.method req = "POST"%string ->
  truthy (CreateRoute.bodySessionId req) = true ->
  P.getSession (textOf (CreateRoute.bodySessionId req)) q = None ->
  CreateRoute.handler apiKey now req (Some q) =
    (Some {| P.sessions :=
               JsMap.set (textOf (CreateRoute.bodySessionId req))
                 {| P.id := textOf (CreateRoute.bodySessionId req);
                    P.websocket := Some (P.nextSocket q);
                    P.isConnected := false; P.lastActivity := now |}
                 (P.sessions q);
             P.nextSocket := S (P.nextSocket q);
             P.opening := P.opening q ++
                          [(P.nextSocket q,
                            textOf (CreateRoute.bodySessionId req))];
             P.log := P.NewWebSocket (P.nextSocket q) :: P.log q |},
     CreateRoute.Await (P.nextSocket q)
                       (textOf (CreateRoute.bodySessionId req))).
Proof.
  intros apiKey now [method sid] q M T G. cbn in M, T, G. subst method.
  unfold CreateRoute.handler, P.createSession, JsMap.has.
  unfold P.getSession in G. cbn. rewrite T, G. reflexivity.
Qed.

(** X15.  A request to create a session whose id is free makes one
    websocket and waits for it.  A second request for the same id, while
    the first waits or after it succeeded, is answered 500 with the
    message that the session already exists, and changes nothing.  When
    the websocket of the first request fails, its entry is removed, and a
    new request for the id makes a new websocket. *)
Theorem create_route_one_session_an_id :
  forall apiKey now now' req p message,
    CreateRoute.method req = "POST"%string ->
    truthy (CreateRoute.bodySessionId req) = true ->
    let sessionId := textOf (CreateRoute.bodySessionId req) in
    P.getSession sessionId p = None ->
    let first := CreateRoute.handler apiKey now req (Some p) in
    exists q,
      first = (Some q, CreateRoute.Await (P.nextSocket p) sessionId) /\
      P.done q = P.done p ++ [P.NewWebSocket (P.nextSocket p)] /\
      CreateRoute.handler apiKey now' req (Some q) =
        (Some q, CreateRoute.Respond
                   (CreateRoute.creationFailed (P.alreadyExists sessionId))) /\
      CreateRoute.handler apiKey now' req
          (Some (fst (CreateRoute.opened (P.nextSocket p) sessionId now' q))) =
        (Some (fst (CreateRoute.opened (P.nextSocket p) sessionId now' q)),
         CreateRoute.Respond
           (CreateRoute.creationFailed (P.alreadyExists sessionId))) /\
      let q' := fst (CreateRoute.failed (P.nextSocket p) sessionId message q) in
      P.getSession sessionId q' = None /\
      snd (CreateRoute.handler apiKey now' req (Some q')) =
        CreateRoute.Await (S (P.nextSocket p)) sessionId.
Proof.
  intros apiKey now now' req p message M T sessionId G first. subst first.
  rewrite (create_route_free apiKey now req p M T G). fold sessionId.
  eexists. split; [reflexivity|]. split; [reflexivity|].
  assert (H : forall v, JsMap.has sessionId
                          (JsMap.set sessionId v (P.sessions p)) = true)
    by (intros v; apply has_set_same).
  split; [apply (create_route_existing apiKey now' req _ M T); apply H|].
  split.
  { apply (create_route_existing apiKey now' req _ M T).
    apply has_keys. unfold CreateRoute.opened. cbn [fst].
    rewrite onOpen_keys. apply has_keys. apply H. }
  cbv zeta. unfold CreateRoute.failed, P.onError, P.waits.
  cbn [fst P.emit P.opening]. rewrite waits_after_create.
  cbn [P.settle P.setSessions P.sessions P.nextSocket P.emit P.opening P.log].
  assert (G' : forall m : JsMap.Map (V := P.RealtimeSession),
             JsMap.get sessionId (JsMap.delete sessionId m) = None)
    by (intros m; apply get_delete_same).
  split; [apply G'|].
  match goal with |- snd (CreateRoute.handler _ _ _ (Some ?q')) = _ =>
    rewrite (create_route_free apiKey now' req q' M T (G' _)) end.
  reflexivity.
Qed.

Lemma create_route_one_session_an_id_witness :
  snd (CreateRoute.handler (Some "sk-1"%string) 5%Z
         {| CreateRoute.method := "POST";
            CreateRoute.bodySessionId := Some "a"%string |}
         (fst (CreateRoute.handler (Some "sk-1"%string) 0%Z
                 {| CreateRoute.method := "POST";
                    CreateRoute.bodySessionId := Some "a"%string |}
                 (Some P.initial)))) =
  CreateRoute.Respond (CreateRoute.creationFailed "Session a already exists").
Proof.
  destruct (create_route_one_session_an_id
              (Some "sk-1"%string) 0%Z 5%Z
              {| CreateRoute.method := "POST";
                 CreateRoute.bodySessionId := Some "a"%string |}
              P.initial "refused"%string eq_refl eq_refl eq_refl)
    as (q & E & _ & F & _).
  rewrite E. cbn [fst]. rewrite F. reflexivity.
Defined.

(* ------------------------------------------------------------------------- *)
(** ** The preferences page *)












(* ------------------------------------------------------------------------- *)
(** ** WebRTC signalling *)

Lemma has_in : forall c a, SR.has c a = true <-> In c a.
Proof.
  intros c a. unfold SR.has. rewrite existsb_exists. split.
  - intros (x & I & E). apply String.eqb_eq in E. subst x. exact I.
  - intros I. exists c. split; [exact I|apply String.eqb_refl].
Qed.

Lemma has_add : forall c a, SR.has c (SR.add c a) = true.
Proof.
  intros c a. unfold SR.add. destruct (SR.has c a) eqn:H; [exact H|].
  apply has_in. apply in_or_app. right. left. reflexivity.
Qed.

Lemma has_delete : forall c a, SR.has c (SR.delete c a) = false.
Proof.
  intros c a. destruct (SR.has c (SR.delete c a)) eqn:H; [|reflexivity].
  apply has_in in H. unfold SR.delete in H. apply filter_In in H.
  destruct H as [_ H]. rewrite String.eqb_refl in H. discriminate H.
Qed.

Lemma signaling_new : forall apiKey uuid req st s p signal,
  SR.method req = "POST"%string ->
  SR.bodySignal req = Some signal ->
  SR.webrtcServer st = Some s ->
  SR.realtimeProxy st = Some p ->
  let sessionId := if truthy (SR.bodyClientId req)
                   then textOf (SR.bodyClientId req) else uuid in
  SR.has sessionId (SR.activeSessions st) = false ->
  SR.handler apiKey uuid req st =
    {| SR.webrtcServer :=
         Some (WS.onSignal (SR.nextHandler st) sessionId
                 (WS.createPeerConnection sessionId (Some signal) s));
       SR.realtimeProxy := Some p;
       SR.activeSessions := SR.activeSessions st ++ [sessionId];
       SR.waiting := SR.waiting st ++
                     [{| SR.handlerOf := SR.nextHandler st;
                         SR.sessionOf := sessionId;
                         SR.stage := SR.AwaitSignal |}];
       SR.nextHandler := S (SR.nextHandler st);
       SR.responses := SR.responses st |}.
Proof.
  intros apiKey uuid [method sig cid] st s p signal M B Sv Px sessionId F.
  cbn in M, B, sessionId. subst method sig.
  destruct st as [sv px act wt nh rs]. cbn in Sv, Px, F. subst sv px.
  unfold SR.handler, SR.initializeServers, SR.onServer, SR.add. cbn.
  fold sessionId. rewrite F. reflexivity.
Qed.

Lemma signaling_active : forall apiKey uuid req st s p signal,
  SR.method req = "POST"%string ->
  SR.bodySignal req = Some signal ->
  SR.webrtcServer st = Some s ->
  SR.realtimeProxy st = Some p ->
  let sessionId := if truthy (SR.bodyClientId req)
                   then textOf (SR.bodyClientId req) else uuid in
  SR.has sessionId (SR.activeSessions st) = true ->
  SR.handler apiKey uuid req st =
    SR.respond (SR.nextHandler st) (SR.reused sessionId) (SR.called st).
Proof.
  intros apiKey uuid [method sig cid] st s p signal M B Sv Px sessionId F.
  cbn in M, B, sessionId. subst method sig.
  destruct st as [sv px act wt nh rs]. cbn in Sv, Px, F. subst sv px.
  unfold SR.handler, SR.initializeServers. cbn.
  fold sessionId. rewrite F. reflexivity.
Qed.

Lemma fresh_handler : forall h sessionId w,
  (forall x, In x w -> SR.handlerOf x < h) ->
  find (fun x => (SR.handlerOf x =? h)%nat &&
                 match SR.stage x with SR.AwaitSignal => true | _ => false end)
       (w ++ [{| SR.handlerOf := h; SR.sessionOf := sessionId;
                 SR.stage := SR.AwaitSignal |}]) =
    Some {| SR.handlerOf := h; SR.sessionOf := sessionId;
            SR.stage := SR.AwaitSignal |} /\
  SR.notWaiting h (w ++ [{| SR.handlerOf := h; SR.sessionOf := sessionId;
                            SR.stage := SR.AwaitSignal |}]) = w /\
  SR.awaitsSignal h w = false.
Proof.
  intros h sessionId w. unfold SR.notWaiting, SR.awaitsSignal.
  induction w as [|x w IH]; intros L.
  - cbn. rewrite Nat.eqb_refl. repeat split; reflexivity.
  - assert (X : (SR.handlerOf x =? h)%nat = false).
    { apply Nat.eqb_neq. specialize (L x (or_introl eq_refl)). lia. }
    destruct (IH (fun y I => L y (or_intror I))) as (A & B & C).
    cbn -[Nat.eqb]. rewrite X. cbn -[Nat.eqb]. rewrite A, B, C.
    repeat split; reflexivity.
Qed.

Lemma afterSignal_proxy : forall h c a now st,
  SR.realtimeProxy st <> None ->
  SR.realtimeProxy (SR.afterSignal h c a now st) <> None.
Proof.
  intros h c a now st H. unfold SR.afterSignal.
  destruct (SR.realtimeProxy st) as [p|] eqn:E; [|destruct H; reflexivity].
  destruct (P.createSession c now p); cbn; [discriminate|].
  rewrite E. discriminate.
Qed.

Lemma afterSignal_fold_proxy :
  forall c a now (l : list (HandlerId * string)) st,
  SR.realtimeProxy st <> None ->
  SR.realtimeProxy
    (fold_left (fun q x => SR.afterSignal (fst x) c a now q) l st) <> None.
Proof.
  intros c a now l. induction l as [|x l IH]; intros st H; [exact H|].
  cbn. apply IH. apply afterSignal_proxy. exact H.
Qed.

Lemma afterSignal_answers : forall h c a now st,
  SR.realtimeProxy st <> None ->
  In (h, SR.answered c a) (SR.responses (SR.afterSignal h c a now st)) \/
  exists ws,
    In {| SR.handlerOf := h; SR.sessionOf := c;
          SR.stage := SR.AwaitSession ws a |}
       (SR.waiting (SR.afterSignal h c a now st)).
Proof.
  intros h c a now st H. unfold SR.afterSignal.
  destruct (SR.realtimeProxy st) as [p|]; [|destruct H; reflexivity].
  destruct (P.createSession c now p); cbn.
  - right. exists (P.nextSocket p). apply in_or_app. right. left. reflexivity.
  - left. left. reflexivity.
Qed.

(** X17.  One client, one peer at a time.  A signalling request for a
    client id that is not active makes a peer, hands it the signal and
    waits.  A second request for the id meanwhile is answered at once as
    reused and makes nothing.  When the wait times out the request is
    answered 500 and the id is no longer active, but the peer is neither
    destroyed nor removed and its listener stays; a new request for the id
    makes a second peer in its place, and the next answer signal for the
    id answers that request. *)
Theorem signaling_one_peer_a_client :
  forall apiKey uuid req st s p signal now answer,
    SR.method req = "POST"%string ->
    SR.bodySignal req = Some signal ->
    truthy (SR.bodyClientId req) = true ->
    SR.webrtcServer st = Some s ->
    SR.realtimeProxy st = Some p ->
    (forall x, In x (SR.waiting st) -> SR.handlerOf x < SR.nextHandler st) ->
    let c := textOf (SR.bodyClientId req) in
    SR.has c (SR.activeSessions st) = false ->
    let h := SR.nextHandler st in
    let n := WS.nextPeer s in
    let st1 := SR.handler apiKey uuid req st in
    let st2 := SR.handler apiKey uuid req st1 in
    let st3 := SR.timeout h st1 in
    let st4 := SR.handler apiKey uuid req st3 in
    let st5 := SR.peerSignal c answer now st4 in
    SR.responses st1 = SR.responses st /\
    (exists s1,
       SR.webrtcServer st1 = Some s1 /\
       JsMap.get c (WS.peers s1) = Some n /\
       WS.done s1 = WS.done s ++ [WS.NewPeer n; WS.Signal n signal]) /\
    SR.responses st2 = (S h, SR.reused c) :: SR.responses st /\
    SR.webrtcServer st2 = SR.webrtcServer st1 /\
    SR.realtimeProxy st2 = SR.realtimeProxy st1 /\
    SR.activeSessions st2 = SR.activeSessions st1 /\
    SR.responses st3 =
      (h, SR.failed "Signaling timeout") :: SR.responses st /\
    SR.has c (SR.activeSessions st3) = false /\
    SR.webrtcServer st3 = SR.webrtcServer st1 /\
    (exists s4,
       SR.webrtcServer st4 = Some s4 /\
       JsMap.get c (WS.peers s4) = Some (S n) /\
       WS.done s4 =
         WS.done s ++ [WS.NewPeer n; WS.Signal n signal;
                       WS.NewPeer (S n); WS.Signal (S n) signal]) /\
    (In (S h, SR.answered c answer) (SR.responses st5) \/
     exists ws,
       In {| SR.handlerOf := S h; SR.sessionOf := c;
             SR.stage := SR.AwaitSession ws answer |} (SR.waiting st5)).
Proof.
  intros apiKey uuid req st s p signal now answer M B T Sv Px L c F h n.
  assert (Sid : (if truthy (SR.bodyClientId req)
                 then textOf (SR.bodyClientId req) else uuid) = c)
    by (rewrite T; reflexivity).
  pose proof (signaling_new apiKey uuid req st s p signal M B Sv Px) as N1.
  cbv zeta in N1. rewrite Sid in N1. specialize (N1 F). fold h in N1.
  intros st1. subst st1. rewrite N1.
  set (s1 := WS.onSignal h c (WS.createPeerConnection c (Some signal) s)) in *.
  set (st1 := {| SR.webrtcServer := Some s1 |}) in *.
  assert (G1 : forall (m : JsMap.Map (V := WS.PeerId)) v,
             JsMap.get c (JsMap.set c v m) = Some v)
    by (intros m v; apply get_set_same).
  (* the second request *)
  pose proof (signaling_active apiKey uuid req st1 s1 p signal M B
                eq_refl eq_refl) as N2.
  cbv zeta in N2. rewrite Sid in N2.
  assert (A1 : SR.has c (SR.activeSessions st1) = true).
  { apply has_in. cbn. apply in_or_app. right. left. reflexivity. }
  specialize (N2 A1). intros st2. subst st2. rewrite N2.
  (* the timeout *)
  destruct (fresh_handler h c (SR.waiting st) L) as (Fi & Nw & Aw).
  intros st3.
  assert (E3 : st3 =
    {| SR.webrtcServer := Some s1; SR.realtimeProxy := Some p;
       SR.activeSessions := SR.delete c (SR.activeSessions st ++ [c]);
       SR.waiting := SR.waiting st;
       SR.nextHandler := S h;
       SR.responses := (h, SR.failed "Signaling timeout") :: SR.responses st |}).
  { subst st3. unfold SR.timeout. cbn [SR.waiting st1]. rewrite Fi.
    cbn [SR.sessionOf SR.respond SR.setWaiting SR.setActive SR.webrtcServer
         SR.realtimeProxy SR.activeSessions SR.waiting SR.nextHandler
         SR.responses st1].
    rewrite Nw. reflexivity. }
  clearbody st3. subst st3.
  set (st3 := {| SR.webrtcServer := Some s1;
                 SR.responses := (h, _) :: SR.responses st |}).
  (* the retry *)
  assert (F3 : SR.has c (SR.activeSessions st3) = false) by apply has_delete.
  pose proof (signaling_new apiKey uuid req st3 s1 p signal M B
                eq_refl eq_refl) as N4.
  cbv zeta in N4. rewrite Sid in N4. specialize (N4 F3).
  intros st4. subst st4. rewrite N4. intros st5.
  cbn [SR.nextHandler SR.waiting SR.activeSessions SR.responses st3] in *.
  set (s4 := WS.onSignal (S h) c (WS.createPeerConnection c (Some signal) s1))
    in *.
  split; [reflexivity|]. split.
  { exists s1. split; [reflexivity|]. split; [apply G1|].
    unfold WS.done. cbn. rewrite <- app_assoc. reflexivity. }
  split; [reflexivity|]. split; [reflexivity|]. split; [reflexivity|].
  split; [reflexivity|]. split; [reflexivity|]. split; [exact F3|].
  split; [reflexivity|]. split.
  { exists s4. split; [reflexivity|]. split; [apply G1|].
    unfold WS.done. cbn. rewrite <- !app_assoc. reflexivity. }
  subst st5. unfold SR.peerSignal.
  cbn [SR.webrtcServer SR.waiting]. 
  assert (Ls : WS.signalListeners s4 =
               WS.signalListeners s ++ [(h, c); (S h, c)]).
  { cbn. rewrite <- app_assoc. reflexivity. }
  rewrite Ls, filter_app.
  assert (Ah : SR.awaitsSignal h
                 (SR.waiting st ++
                  [{| SR.handlerOf := S h; SR.sessionOf := c;
                      SR.stage := SR.AwaitSignal |}]) = false).
  { unfold SR.awaitsSignal in *. rewrite existsb_app, Aw. cbn -[Nat.eqb].
    replace (S h =? h)%nat with false; [reflexivity|].
    symmetry. apply Nat.eqb_neq. lia. }
  assert (As : SR.awaitsSignal (S h)
                 (SR.waiting st ++
                  [{| SR.handlerOf := S h; SR.sessionOf := c;
                      SR.stage := SR.AwaitSignal |}]) = true).
  { unfold SR.awaitsSignal. rewrite existsb_app. cbn -[Nat.eqb].
    rewrite Nat.eqb_refl. cbn. apply orb_true_r. }
  cbn [filter fst snd]. rewrite String.eqb_refl, Ah, As. cbn [andb].
  rewrite fold_left_app. cbn [fold_left fst].
  apply afterSignal_answers. apply afterSignal_fold_proxy. cbn. discriminate.
Qed.

Lemma signaling_one_peer_a_client_witness :
  let req := {| SR.method := "POST"; SR.bodySignal := Some "offer-a"%string;
                SR.bodyClientId := Some "a"%string |} in
  let st1 := SR.handler (Some "sk-1"%string) "uuid-1" req exampleSignaling in
  SR.responses (SR.handler (Some "sk-1"%string) "uuid-1" req st1) =
    [(2, SR.reused "a")] /\
  SR.responses (SR.timeout 1 st1) = [(1, SR.failed "Signaling timeout")].
Proof.
  assert (L : forall x, In x (SR.waiting exampleSignaling) ->
                        SR.handlerOf x < SR.nextHandler exampleSignaling).
  { intros x [<-|[]]. cbn. lia. }
  destruct (signaling_one_peer_a_client
              (Some "sk-1"%string) "uuid-1"
              {| SR.method := "POST"; SR.bodySignal := Some "offer-a"%string;
                 SR.bodyClientId := Some "a"%string |}
              exampleSignaling
              (WS.onSignal 0 "uuid-0"
                 (WS.createPeerConnection "uuid-0" (Some "offer-0"%string)
                    WS.initial))
              P.initial "offer-a" 9%Z "answer-a"
              eq_refl eq_refl eq_refl eq_refl eq_refl L eq_refl)
    as (_ & _ & R2 & _ & _ & _ & R3 & _).
  split; [exact R2|exact R3].
Defined.





(** X19.  The peers of the server are filed by session id, and the
    listeners of a peer know only that id.  When a second peer is made for
    an id, the first is replaced without being destroyed, and audio for the
    id goes to the second peer once it is connected.  When the first peer
    then closes, its listener removes the entry of the second: audio for
    the id is refused from then on, although the second peer is still
    connected. *)
Theorem close_of_replaced_peer_removes_successor :
  forall s sessionId signal1 signal2 audio,
    let n := WS.nextPeer s in
    let s2 := WS.onPeerConnect (S n)
                (WS.createPeerConnection sessionId (Some signal2)
                   (WS.createPeerConnection sessionId (Some signal1) s)) in
    let s3 := WS.onPeerClose n sessionId s2 in
    JsMap.get sessionId (WS.peers s2) = Some (S n) /\
    WS.done s2 =
      WS.done s ++ [WS.NewPeer n; WS.Signal n signal1;
                    WS.NewPeer (S n); WS.Signal (S n) signal2] /\
    snd (WS.sendAudioData sessionId audio s2) = true /\
    WS.done (fst (WS.sendAudioData sessionId audio s2)) =
      WS.done s2 ++ [WS.Send (S n) audio] /\
    JsMap.get sessionId (WS.peers s3) = None /\
    WS.isConnected (S n) s3 = true /\
    WS.sendAudioData sessionId audio s3 = (s3, false) /\
    ~ In sessionId (WS.getAllConnectedPeers s3).
Proof.
  intros s sid signal1 signal2 audio n s2 s3.
  assert (G2 : JsMap.get sid (WS.peers s2) = Some (S n)).
  { subst s2. cbn. apply get_set_same. }
  assert (C2 : WS.isConnected (S n) s2 = true).
  { subst s2. unfold WS.isConnected. cbn -[Nat.eqb].
    rewrite Nat.eqb_refl. reflexivity. }
  assert (G3 : JsMap.get sid (WS.peers s3) = None).
  { subst s3. cbn [WS.onPeerClose WS.peers]. apply get_none.
    unfold JsMap.keys. intros I. apply in_map_iff in I.
    destruct I as (e & E & I). apply in_delete in I. tauto. }
  split; [exact G2|]. split.
  { subst s2. unfold WS.done. cbn. rewrite <- !app_assoc. reflexivity. }
  unfold WS.sendAudioData. rewrite G2, C2, G3. cbn [fst snd].
  split; [reflexivity|]. split; [reflexivity|]. split; [reflexivity|]. split.
  { subst s3 s2. unfold WS.isConnected, WS.without. cbn -[Nat.eqb].
    replace (S n =? n)%nat with false by (symmetry; apply Nat.eqb_neq; lia).
    cbn -[Nat.eqb]. rewrite Nat.eqb_refl. reflexivity. }
  split; [reflexivity|].
  unfold WS.getAllConnectedPeers. intros I. apply filter_In in I.
  destruct I as [_ I]. rewrite G3 in I. discriminate I.
Qed.
